(** * Paternity index of a parent-child duo (kinship/kinship.py)

    A shallow embedding of the classes [Profile] and [Duo] of
    [kinship/kinship.py], and the properties of the likelihood-ratio engine
    that are stated about them.

    Python objects that outlive a call and are shared by reference (the raw
    profile dictionaries of the caller, the population table) live in a
    [store]; the methods are computations in a state-and-exception monad over
    that store.  Frequencies are binary64 floats (the kernel's primitive
    floats, which are Python's [float]).  Allele values are numbers, taken
    here as Python ints, the repeat counts.  [np.array] picks the element
    type of the array of a profile from its values and converts them: the
    rows are kept as they are when every value fits 64 signed bits, and are
    rounded to binary64 when a value from 2^63 on sits beside a smaller one.
    An array is held as the rows of the numbers its elements stand for, and
    [in], [np.unique] and [np.intersect1d] compare those numbers; the
    statements that relate such comparisons to the alleles of the
    dictionaries are made for profiles whose alleles fit 64 signed bits,
    where both arrays hold the alleles themselves.  Marker
    names are strings, compared as Python compares them.  The file loader
    [load_population] is not part of the model: the caller passes the
    table. *)

From Stdlib Require Import ZArith.
From Stdlib Require Import Floats.PrimFloat Floats.SpecFloat Floats.FloatOps.
From Stdlib Require Uint63.
From stdpp Require Import gmap strings list fin_maps sorting pretty.

#[local] Set Warnings "-inexact-float".
Local Open Scope Z_scope.

(** ** Python values *)

(** The exceptions the code can raise; messages are not part of the model. *)
Inductive exn :=
  | ValueError
  | TypeError
  | AttributeError
  | KeyError
  | IndexError
  | ZeroDivisionError.

Global Instance exn_eq_dec : EqDecision exn.
Proof. solve_decision. Defined.

(** The value stored under a marker of a raw profile: a collection of allele
    values with a length, or an object on which [len] raises [TypeError]
    (a bare number, [None]). *)
Inductive collection :=
  | Sized (items : list Z)
  | Unsized.

(** What the caller may pass as a raw profile. *)
Inductive pyobj :=
  | PyDict (d : gmap string collection)   (* a [dict] *)
  | PyKeyed (ks : list string)            (* not a [dict], but has [keys()] *)
  | PyOther.                              (* no [keys()]: a list, [None], ... *)

(** The dynamically typed results of the two properties. *)
Inductive pyvalue :=
  | PyInt (z : Z)
  | PyFloat (x : float)
  | PyStr (s : string)
  | PyList (l : list string).

(** The caller's mutable objects, by reference: raw profiles under [objects],
    population tables (marker -> allele -> frequency) under [tables]. *)
Record store := Store {
  objects : gmap nat pyobj;
  tables : gmap nat (gmap string (gmap Z float))
}.

(** ** The monad: state passing with exceptions

    An exception keeps the store as it is when it is raised: Python does not
    roll a mutation back. *)
Definition M (A : Type) : Type := store → (exn + A) * store.

Global Instance M_ret : MRet M := λ A a σ, (inr a, σ).
Global Instance M_bind : MBind M := λ A B k m σ,
  match m σ with
  | (inl e, σ') => (inl e, σ')
  | (inr a, σ') => k a σ'
  end.

Definition raise {A} (e : exn) : M A := λ σ, (inl e, σ).

(** [try: body except ...: handler]; [handler e = None] when no clause
    catches [e]. *)
Definition try_except {A} (body : M A) (handler : exn → option (M A)) : M A :=
  λ σ, match body σ with
       | (inl e, σ') =>
           match handler e with
           | Some h => h σ'
           | None => (inl e, σ')
           end
       | r => r
       end.

(** A [for] loop run for its effects. *)
Fixpoint for_each {A} (body : A → M unit) (l : list A) : M unit :=
  match l with
  | [] => mret ()
  | x :: l => body x ≫= λ _, for_each body l
  end.

(** A [for] loop that updates one local variable. *)
Fixpoint for_acc {A B} (body : B → A → M B) (acc : B) (l : list A) : M B :=
  match l with
  | [] => mret acc
  | x :: l => body acc x ≫= λ acc', for_acc body acc' l
  end.

(** ** Builtins *)

Definition py_sorted (l : list string) : list string := merge_sort String.le l.

(** [data.keys()]; the code sorts the keys or tests membership, so their
    order does not matter. *)
Definition py_keys (data : nat) : M (list string) := λ σ,
  match objects σ !! data with
  | Some (PyDict d) => (inr (map_to_list d).*1, σ)
  | Some (PyKeyed ks) => (inr ks, σ)
  | _ => (inl AttributeError, σ)
  end.

(** [isinstance(data, dict)] *)
Definition py_isinstance_dict (data : nat) : M bool := λ σ,
  match objects σ !! data with
  | Some (PyDict _) => (inr true, σ)
  | _ => (inr false, σ)
  end.

(** [data.items()] of a dict *)
Definition py_items (data : nat) : M (list (string * collection)) := λ σ,
  match objects σ !! data with
  | Some (PyDict d) => (inr (map_to_list d), σ)
  | _ => (inl AttributeError, σ)
  end.

(** [data[k]] of a dict *)
Definition py_getitem (data : nat) (k : string) : M collection := λ σ,
  match objects σ !! data with
  | Some (PyDict d) =>
      match d !! k with
      | Some v => (inr v, σ)
      | None => (inl KeyError, σ)
      end
  | _ => (inl TypeError, σ)
  end.

(** [del data[k]]: the dictionary object itself is updated. *)
Definition py_delitem (data : nat) (k : string) : M unit := λ σ,
  match objects σ !! data with
  | Some (PyDict d) =>
      match d !! k with
      | Some _ =>
          (inr (), Store (<[data := PyDict (delete k d)]> (objects σ)) (tables σ))
      | None => (inl KeyError, σ)
      end
  | _ => (inl TypeError, σ)
  end.

(** [len(v)] *)
Definition py_len (v : collection) : M nat :=
  match v with
  | Sized items => mret (length items)
  | Unsized => raise TypeError
  end.

(** [tuple(v)] *)
Definition py_tuple (v : collection) : M (list Z) :=
  match v with
  | Sized items => mret items
  | Unsized => raise TypeError
  end.

(** [l[i]] of a sequence *)
Definition py_index {A} (l : list A) (i : nat) : M A :=
  match l !! i with
  | Some x => mret x
  | None => raise IndexError
  end.

(** [pop[k]] of the frequencies of one marker *)
Definition freq_getitem (pop : gmap Z float) (k : Z) : M float :=
  match pop !! k with
  | Some f => mret f
  | None => raise KeyError
  end.

(** [population[m]] of a population table held by reference *)
Definition table_getitem (population : nat) (m : string) : M (gmap Z float) := λ σ,
  match tables σ !! population with
  | Some t =>
      match t !! m with
      | Some pop => (inr pop, σ)
      | None => (inl KeyError, σ)
      end
  | None => (inl TypeError, σ)
  end.

(** A float used as a dictionary key: Python hashes and compares numbers by
    their exact value, so a float finds an integer key exactly when it is
    that integer; a float that is no integer finds none, and the lookup
    raises [KeyError]. *)
Definition key_of_float (x : float) : M Z :=
  match Prim2SF x with
  | S754_zero _ => mret 0
  | S754_finite s m e =>
      let v := if bool_decide (0 ≤ e) then Some (Z.pos m * 2 ^ e)
               else if bool_decide ((Z.pos m) mod 2 ^ (- e) = 0)
                    then Some (Z.pos m / 2 ^ (- e)) else None in
      match v with
      | Some z => mret (if s then - z else z)
      | None => raise KeyError
      end
  | _ => raise KeyError
  end.

(** [x / y] on floats: Python raises on a zero divisor. *)
Definition py_truediv (x y : float) : M float :=
  if PrimFloat.eqb y 0%float then raise ZeroDivisionError
  else mret (PrimFloat.div x y).

(** An [int] converted for an operation with a float; exact below 2^53,
    and the ints of this program are 1 and 4. *)
Definition float_of_int (z : Z) : float :=
  if bool_decide (z < 0) then PrimFloat.opp (PrimFloat.of_uint63 (Uint63.of_Z (- z)))
  else PrimFloat.of_uint63 (Uint63.of_Z z).

(** [calc *= r] for a float [r]: [calc] is the int it started as, or a float. *)
Definition py_imul (calc : pyvalue) (r : float) : M pyvalue :=
  match calc with
  | PyInt z => mret (PyFloat (PrimFloat.mul (float_of_int z) r))
  | PyFloat x => mret (PyFloat (PrimFloat.mul x r))
  | _ => raise TypeError
  end.

(** Truth value of an object in a condition. *)
Definition py_bool (v : pyvalue) : bool :=
  match v with
  | PyInt z => bool_decide (z ≠ 0)
  | PyFloat x => negb (PrimFloat.eqb x 0%float)
  | PyStr s => bool_decide (s ≠ "")
  | PyList l => bool_decide (l ≠ [])
  end.

(** [any(l)] of a list of strings: some string is not empty. *)
Definition py_any (l : list string) : bool :=
  existsb (λ s, py_bool (PyStr s)) l.

(** [len(v)] of a result value *)
Definition py_len_value (v : pyvalue) : M nat :=
  match v with
  | PyList l => mret (length l)
  | PyStr s => mret (String.length s)
  | _ => raise TypeError
  end.

(** [np.unique(a)]: the sorted distinct values. *)
Definition np_unique (a : list Z) : list Z := merge_sort Z.le (remove_dups a).

(** [np.intersect1d(a, b)]: the sorted distinct values found in both. *)
Definition np_intersect1d (a b : list Z) : list Z :=
  filter (λ x, x ∈ b) (np_unique a).

(** *** [np.array] of rows of Python ints

    The element type numpy finds for one Python int: [int64] when it fits 64
    signed bits, [uint64] when it fits 64 unsigned bits, a Python object
    otherwise. *)
Inductive np_dtype := int64 | uint64 | float64 | object.

Definition np_discover (x : Z) : np_dtype :=
  if bool_decide (- 2 ^ 63 ≤ x < 2 ^ 63) then int64
  else if bool_decide (2 ^ 63 ≤ x < 2 ^ 64) then uint64
  else object.

(** [np.promote_types]: signed and unsigned 64-bit integers have no common
    integer type and meet in [float64]; an object absorbs everything. *)
Definition np_promote (a b : np_dtype) : np_dtype :=
  match a, b with
  | object, _ | _, object => object
  | float64, _ | _, float64 => float64
  | int64, int64 => int64
  | uint64, uint64 => uint64
  | int64, uint64 | uint64, int64 => float64
  end.

(** The element type of the array of the values [xs]; an array without
    elements is a [float64] one. *)
Definition np_result_type (xs : list Z) : np_dtype :=
  match xs with
  | [] => float64
  | x :: xs => foldl (λ t y, np_promote t (np_discover y)) (np_discover x) xs
  end.

(** A Python int as a binary64 float, rounded to nearest, ties to even; the
    result is given by the integer it stands for.  The ints converted here
    lie below 2^64, so the conversion does not overflow. *)
Definition float64_of_int (z : Z) : Z :=
  match binary_normalize prec emax z 0 false with
  | S754_finite s m e =>
      let v := if bool_decide (0 ≤ e) then Z.pos m * 2 ^ e
               else Z.pos m / 2 ^ (- e) in
      if s then - v else v
  | S754_zero _ => 0
  | _ => z
  end.

(** A value as an element of an array of type [t], and a row of values as
    a row of such an array: only [float64] changes them. *)
Definition np_cast (t : np_dtype) (x : Z) : Z :=
  match t with
  | float64 => float64_of_int x
  | _ => x
  end.

Definition np_astype (t : np_dtype) (row : list Z) : list Z :=
  np_cast t <$> row.

(** The rows of [np.array(rows)] for rows of one length. *)
Definition np_convert (rows : list (list Z)) : list (list Z) :=
  np_astype (np_result_type (mjoin rows)) <$> rows.

(** [np.array(rows)] of a list of tuples of Python ints: rows of different
    lengths are refused with [ValueError]. *)
Definition np_array (rows : list (list Z)) : M (list (list Z)) :=
  if forallb (λ row, bool_decide (length row = length (default [] (head rows))))
             rows
  then mret (np_convert rows)
  else raise ValueError.


(** ** class Profile *)

Module Profile.

(** [profile] is the caller's dictionary itself, not a copy; [markers] and
    [alleles] are computed once, when the object is made. *)
Record t := Build {
  profile : nat;
  markers : list string;
  alleles : list (list Z)
}.

Definition _parse_markers (profile : nat) : M (list string) :=
  keys ← py_keys profile;
  mret (py_sorted keys).

(** [np.array] of the rows; a row is the [tuple] of the marker's collection. *)
Definition _parse_alleles (profile : nat) (markers : list string)
  : M (list (list Z)) :=
  rows ← mapM (λ marker, py_getitem profile marker ≫= py_tuple) markers;
  np_array rows.

Definition __init__ (profile : nat) : M t :=
  markers ← _parse_markers profile;
  alleles ← _parse_alleles profile markers;
  mret (Build profile markers alleles).

End Profile.

(** ** class Duo *)

Module Duo.

Record t := Build {
  child : Profile.t;
  parent : Profile.t;
  markers : list string;
  population : nat
}.

(** The body of the loop over [data.items()]. *)
Definition check_entry (entry : string * collection) : M unit :=
  let '(k, v) := entry in
  n ← py_len v;
  if bool_decide (n ≠ 2%nat) then raise ValueError else mret ().

Definition _load_profile (data : nat) : M Profile.t :=
  try_except
    (isdict ← py_isinstance_dict data;
     if negb isdict then raise TypeError
     else
       items ← py_items data;
       for_each check_entry items)
    (λ _, Some (raise ValueError));;
  keys ← py_keys data;
  (if bool_decide ("AMEL" ∈ keys) then py_delitem data "AMEL" else mret ());;
  Profile.__init__ data.

Definition _get_markers (parent child : Profile.t) : M (list string) :=
  try_except
    (if bool_decide (Profile.markers parent ≠ Profile.markers child)
     then raise ValueError else mret ())
    (λ _, Some (raise ValueError));;
  mret (Profile.markers parent).

(** The default of [population] is computed from a file when the class is
    defined; here the caller always passes the table. *)
Definition __init__ (parent child population : nat) : M t :=
  try_except
    (pkeys ← py_keys parent;
     ckeys ← py_keys child;
     if bool_decide (py_sorted pkeys ≠ py_sorted ckeys)
     then raise ValueError else mret ())
    (λ e, match e with
          | ValueError => Some (raise ValueError)
          | _ => None
          end);;
  child' ← _load_profile child;
  parent' ← _load_profile parent;
  markers ← _get_markers parent' child';
  mret (Build child' parent' markers population).

(** The alleles of the child that are not among the parent's. *)
Definition _check (p_alleles c_alleles : list Z) : list Z :=
  filter (λ allele, allele ∉ p_alleles) c_alleles.

(** The list the loop of [inconsistent_markers] builds. *)
Definition flagged_markers (self : t) : list string :=
  let _alleles := zip (Profile.alleles (parent self))
                      (Profile.alleles (child self)) in
  let _markers := Profile.markers (parent self) in
  foldl (λ inconsistent_markers '(marker, (p_alleles, c_alleles)),
           if bool_decide (length (_check p_alleles c_alleles) ≠ 1%nat)
           then inconsistent_markers ++ [marker]
           else inconsistent_markers)
        [] (zip _markers _alleles).

Definition inconsistent_markers (self : t) : M pyvalue :=
  let inconsistent_markers := flagged_markers self in
  mret (if py_any inconsistent_markers then PyList inconsistent_markers
        else PyInt 0).

Definition is_heterozygous (alleles : list Z) : bool :=
  bool_decide (length (np_unique alleles) = 2%nat).

(** The body of the loop of [paternity_index] for one marker: four [if]
    statements in a row, each updating [calc]. *)
Definition marker_step (pop : gmap Z float) (calc : pyvalue) (p c : list Z)
  : M pyvalue :=
  calc ← (if is_heterozygous p && is_heterozygous c then
            if bool_decide (length (np_intersect1d p c) = 2%nat) then
              p0 ← py_index p 0; a ← freq_getitem pop p0;
              p1 ← py_index p 1; b ← freq_getitem pop p1;
              r ← py_truediv (a + b)%float (float_of_int 4 * a * b)%float;
              py_imul calc r
            else
              shared_allele ← py_index (np_intersect1d p c) 0;
              f ← freq_getitem pop shared_allele;
              r ← py_truediv 0.25%float f;
              py_imul calc r
          else mret calc);
  calc ← (if is_heterozygous p && negb (is_heterozygous c) then
            p0 ← py_index p 0; f ← freq_getitem pop p0;
            r ← py_truediv 0.5%float f;
            py_imul calc r
          else mret calc);
  calc ← (if negb (is_heterozygous p) && is_heterozygous c then
            p0 ← py_index p 0; f ← freq_getitem pop p0;
            r ← py_truediv 0.5%float f;
            py_imul calc r
          else mret calc);
  if negb (is_heterozygous p) && negb (is_heterozygous c) then
    f0 ← freq_getitem pop 0;
    k ← key_of_float f0;
    f ← freq_getitem pop k;
    r ← py_truediv (float_of_int 1) f;
    py_imul calc r
  else mret calc.

Definition paternity_index (self : t) : M pyvalue :=
  flagged ← inconsistent_markers self;
  if py_bool flagged then
    flagged ← inconsistent_markers self;
    n ← py_len_value flagged;
    mret (PyStr ("There are " +:+ pretty n +:+ " inconsistent markers."))
  else
    for_acc (λ calc '(m, (p, c)),
               pop ← table_getitem (population self) m;
               marker_step pop calc p c)
            (PyInt 1)
            (zip (markers self)
                 (zip (Profile.alleles (parent self))
                      (Profile.alleles (child self)))).

End Duo.

(** ** A caller

    The caller holds the parent's dictionary at reference 0, the child's at
    reference 1 and the population table at reference 0 of the tables. *)
Definition caller (parent child : pyobj)
    (population : gmap string (gmap Z float)) : store :=
  Store {[ 0%nat := parent; 1%nat := child ]} {[ 0%nat := population ]}.

(** [Duo(parent, child, population).paternity_index] *)
Definition duo_paternity_index : M pyvalue :=
  duo ← Duo.__init__ 0 1 0;
  Duo.paternity_index duo.

(** [Duo(parent, child, population).inconsistent_markers] *)
Definition duo_inconsistent_markers : M pyvalue :=
  duo ← Duo.__init__ 0 1 0;
  Duo.inconsistent_markers duo.

(** A marker with its two alleles, as the profiles of the examples write it. *)
Definition pair (a b : Z) : collection := Sized [a; b].

(** The two kinds of result of [paternity_index]. *)
Definition numeric (v : pyvalue) : bool :=
  match v with
  | PyInt _ | PyFloat _ => true
  | _ => false
  end.

Definition diagnostic (v : pyvalue) : bool :=
  match v with
  | PyStr _ => true
  | _ => false
  end.

(** ** Vocabulary of the statements *)

(** The marker [m] is in the result [v] of [inconsistent_markers]. *)
Definition listed (v : pyvalue) (m : string) : Prop :=
  match v with
  | PyList l => m ∈ l
  | _ => False
  end.

(** A computation that leaves the store alone. *)
Definition read_only {A} (m : M A) : Prop := ∀ σ, (m σ).2 = σ.

(** An entry of a raw profile that passes the check of [_load_profile]. *)
Definition two_alleles (v : collection) : bool :=
  match v with
  | Sized [_; _] => true
  | _ => false
  end.

Definition well_formed (d : gmap string collection) : bool :=
  forallb (λ entry, two_alleles entry.2) (map_to_list d).

(** The alleles a marker has in the dictionary. *)
Definition row (d : gmap string collection) (marker : string) : list Z :=
  match d !! marker with
  | Some (Sized items) => items
  | _ => []
  end.

(** The element type of the array made of the dictionary [d], and the row
    of a marker in that array. *)
Definition array_dtype (d : gmap string collection) : np_dtype :=
  np_result_type (mjoin (row d <$> py_sorted (map_to_list d).*1)).

Definition stored (d : gmap string collection) (marker : string) : list Z :=
  np_astype (array_dtype d) (row d marker).

(** The [Profile] made of the dictionary [d] held at [data]. *)
Definition loaded (data : nat) (d : gmap string collection) : Profile.t :=
  let markers := py_sorted (map_to_list d).*1 in
  Profile.Build data markers (np_convert (row d <$> markers)).

(** The Python ints that an array of 64-bit signed integers holds, and the
    dictionaries all of whose alleles, those of ["AMEL"] aside, are such
    ints: their array holds the alleles as they are. *)
Definition in_int64 (x : Z) : bool := bool_decide (- 2 ^ 63 ≤ x < 2 ^ 63).

Definition int64_alleles (d : gmap string collection) : bool :=
  forallb (λ entry, bool_decide (entry.1 = "AMEL")
                    || match entry.2 with
                       | Sized items => forallb in_int64 items
                       | Unsized => true
                       end)
          (map_to_list d).

(** The store after [del data['AMEL']], and as it is when the key is absent. *)
Definition without_AMEL (data : nat) (d : gmap string collection) (σ : store)
  : store :=
  Store (<[data := PyDict (delete "AMEL" d)]> (objects σ)) (tables σ).

(** * Properties *)

(** ** Worked examples on the marker CSF1PO *)

(** C1: for parent [{CSF1PO: [13, 14]}], child [{CSF1PO: [13, 14]}] and
    population [{CSF1PO: {13: 0.2, 14: 0.3}}] the claim expects the ratio
    (0.2 + 0.3) / (4 * 0.2 * 0.3); the code returns the diagnostic string,
    because no allele of the child lies outside the parent's pair and
    [inconsistent_markers] flags every marker whose count of such alleles is
    not 1.  The loop of [paternity_index] has the branch for this case, and
    its step would give the expected ratio. *)
Lemma paternity_index_shared_pair :
  let pop : gmap Z float := {[13 := 0.2%float; 14 := 0.3%float]} in
  let σ := caller (PyDict {["CSF1PO" := pair 13 14]})
                  (PyDict {["CSF1PO" := pair 13 14]})
                  {["CSF1PO" := pop]} in
  Duo._check [13; 14] [13; 14] = [] ∧
  (duo_inconsistent_markers σ).1 = inr (PyList ["CSF1PO"]) ∧
  (duo_paternity_index σ).1 = inr (PyStr "There are 1 inconsistent markers.") ∧
  (Duo.marker_step pop (PyInt 1) [13; 14] [13; 14] σ).1
    = inr (PyFloat ((0.2 + 0.3) / (4 * 0.2 * 0.3))).
Proof. repeat split; vm_compute; reflexivity. Qed.

(** C2, as stated, fails: for parent [{CSF1PO: [13, 14]}], child
    [{CSF1PO: [13, 15]}] and population
    [{CSF1PO: {13: 0.2, 14: 0.3, 15: 0.1}}] the marker is not in the result
    of [inconsistent_markers] and [paternity_index] is not a diagnostic. *)
Lemma one_foreign_allele_not_diagnostic :
  let σ := caller (PyDict {["CSF1PO" := pair 13 14]})
                  (PyDict {["CSF1PO" := pair 13 15]})
                  {["CSF1PO" := {[13 := 0.2%float; 14 := 0.3%float;
                                  15 := 0.1%float]}]} in
  ¬ ∃ v l, (duo_paternity_index σ).1 = inr v ∧ diagnostic v = true ∧
           (duo_inconsistent_markers σ).1 = inr (PyList l) ∧ "CSF1PO" ∈ l.
Proof.
  intros σ (v & l & Hv & Hd & _).
  vm_compute in Hv. injection Hv as <-. discriminate Hd.
Qed.

(** C2, amended: on that case exactly one allele of the child (15) lies
    outside the parent's pair, so the marker is consistent:
    [inconsistent_markers] is 0 and [paternity_index] is the ratio
    0.25 / f(13) = 1.25. *)
Lemma one_foreign_allele_ratio :
  let σ := caller (PyDict {["CSF1PO" := pair 13 14]})
                  (PyDict {["CSF1PO" := pair 13 15]})
                  {["CSF1PO" := {[13 := 0.2%float; 14 := 0.3%float;
                                  15 := 0.1%float]}]} in
  Duo._check [13; 14] [13; 15] = [15] ∧
  (duo_inconsistent_markers σ).1 = inr (PyInt 0) ∧
  (duo_paternity_index σ).1 = inr (PyFloat (0.25 / 0.2)) ∧
  (0.25 / 0.2 = 1.25)%float.
Proof. repeat split; vm_compute; reflexivity. Qed.

(** ** Running the monad *)

Lemma bind_run {A B} (m : M A) (k : A → M B) σ :
  (m ≫= k) σ = match m σ with
               | (inl e, σ') => (inl e, σ')
               | (inr a, σ') => k a σ'
               end.
Proof. reflexivity. Qed.

Lemma ret_run {A} (a : A) σ : (mret a : M A) σ = (inr a, σ).
Proof. reflexivity. Qed.

Lemma raise_run {A} e σ : @raise A e σ = (inl e, σ).
Proof. reflexivity. Qed.

Lemma bind_inr {A B} (m : M A) (k : A → M B) σ b σ' :
  (m ≫= k) σ = (inr b, σ') →
  ∃ a σ1, m σ = (inr a, σ1) ∧ k a σ1 = (inr b, σ').
Proof.
  rewrite bind_run. destruct (m σ) as [[e|a] σ1]; [discriminate|eauto].
Qed.

(** ** Computations that leave the store alone *)

Lemma read_only_ret {A} (a : A) : read_only (mret a).
Proof. intros σ. reflexivity. Qed.

Lemma read_only_raise {A} e : read_only (@raise A e).
Proof. intros σ. reflexivity. Qed.

Lemma read_only_bind {A B} (m : M A) (k : A → M B) :
  read_only m → (∀ a, read_only (k a)) → read_only (m ≫= k).
Proof.
  intros Hm Hk σ. rewrite bind_run. specialize (Hm σ).
  destruct (m σ) as [[e|a] σ1]; simpl in *; subst; [done|apply Hk].
Qed.

Lemma read_only_try_except {A} (body : M A) handler :
  read_only body →
  (∀ e h, handler e = Some h → read_only h) →
  read_only (try_except body handler).
Proof.
  intros Hb Hh σ. unfold try_except. specialize (Hb σ).
  destruct (body σ) as [[e|a] σ1]; simpl in *; subst; [|done].
  destruct (handler e) as [h|] eqn:He; [by eapply Hh|done].
Qed.

Lemma read_only_for_each {A} (body : A → M unit) l :
  (∀ x, read_only (body x)) → read_only (for_each body l).
Proof.
  intros Hb. induction l as [|x l IH]; simpl.
  - apply read_only_ret.
  - apply read_only_bind; auto.
Qed.

Lemma read_only_for_acc {A B} (body : B → A → M B) l acc :
  (∀ acc x, read_only (body acc x)) → read_only (for_acc body acc l).
Proof.
  intros Hb. revert acc. induction l as [|x l IH]; intros acc; simpl.
  - apply read_only_ret.
  - apply read_only_bind; auto.
Qed.

Lemma read_only_py_keys data : read_only (py_keys data).
Proof. intros σ. unfold py_keys. by repeat case_match. Qed.

Lemma read_only_py_isinstance_dict data : read_only (py_isinstance_dict data).
Proof. intros σ. unfold py_isinstance_dict. by repeat case_match. Qed.

Lemma read_only_py_items data : read_only (py_items data).
Proof. intros σ. unfold py_items. by repeat case_match. Qed.

Lemma read_only_py_getitem data k : read_only (py_getitem data k).
Proof. intros σ. unfold py_getitem. by repeat case_match. Qed.

Lemma read_only_table_getitem population m :
  read_only (table_getitem population m).
Proof. intros σ. unfold table_getitem. by repeat case_match. Qed.

Lemma read_only_py_len v : read_only (py_len v).
Proof. destruct v; [apply read_only_ret|apply read_only_raise]. Qed.

Lemma read_only_py_tuple v : read_only (py_tuple v).
Proof. destruct v; [apply read_only_ret|apply read_only_raise]. Qed.

Lemma read_only_py_index {A} (l : list A) i : read_only (py_index l i).
Proof.
  unfold py_index. destruct (l !! i); [apply read_only_ret|apply read_only_raise].
Qed.

Lemma read_only_freq_getitem pop k : read_only (freq_getitem pop k).
Proof.
  unfold freq_getitem.
  destruct (pop !! k); [apply read_only_ret|apply read_only_raise].
Qed.

Lemma read_only_key_of_float x : read_only (key_of_float x).
Proof.
  unfold key_of_float.
  repeat case_match; first [apply read_only_ret|apply read_only_raise].
Qed.

Lemma read_only_py_truediv x y : read_only (py_truediv x y).
Proof.
  unfold py_truediv. case_match; [apply read_only_raise|apply read_only_ret].
Qed.

Lemma read_only_py_imul calc r : read_only (py_imul calc r).
Proof.
  destruct calc; first [apply read_only_ret|apply read_only_raise].
Qed.

Lemma read_only_py_len_value v : read_only (py_len_value v).
Proof. destruct v; first [apply read_only_ret|apply read_only_raise]. Qed.

Create HintDb read_only.
#[export] Hint Resolve read_only_ret read_only_raise read_only_py_keys
  read_only_py_isinstance_dict read_only_py_items read_only_py_getitem
  read_only_table_getitem read_only_py_len read_only_py_tuple
  read_only_py_index read_only_freq_getitem read_only_key_of_float
  read_only_py_truediv read_only_py_imul read_only_py_len_value : read_only.

(** Splits a computation along its binds and branches and closes the leaves
    with the hints. *)
Ltac read_only_steps :=
  repeat first
    [ progress auto with read_only
    | apply read_only_bind; [|intros ?]
    | match goal with
      | |- read_only (if ?b then _ else _) => destruct b
      | |- read_only (let '(_, _) := ?x in _) => destruct x
      end ].

Lemma read_only_marker_step pop calc p c :
  read_only (Duo.marker_step pop calc p c).
Proof. unfold Duo.marker_step. read_only_steps. Qed.

Lemma read_only_inconsistent_markers self :
  read_only (Duo.inconsistent_markers self).
Proof. unfold Duo.inconsistent_markers. read_only_steps. Qed.

Lemma read_only_paternity_index self : read_only (Duo.paternity_index self).
Proof.
  unfold Duo.paternity_index.
  apply read_only_bind; [apply read_only_inconsistent_markers|intros flagged].
  destruct (py_bool flagged).
  - apply read_only_bind; [apply read_only_inconsistent_markers|intros ?].
    read_only_steps.
  - apply read_only_for_acc. intros calc [m [p c]].
    apply read_only_bind; [auto with read_only|intros pop].
    apply read_only_marker_step.
Qed.

(** C8: the [paternity_index] of a case leaves the store as it found it, the
    caller's profile dictionaries and the population table included, and a
    second evaluation gives the result of the first, be it a number, the
    diagnostic or an exception.  This holds for every case object, so for
    every successfully constructed one. *)
Theorem paternity_index_twice (self : Duo.t) (σ : store) :
  (Duo.paternity_index self σ).2 = σ ∧
  Duo.paternity_index self (Duo.paternity_index self σ).2
  = Duo.paternity_index self σ.
Proof.
  pose proof (read_only_paternity_index self σ) as H.
  split; [exact H|]. by rewrite H.
Qed.

(** ** Loading a profile *)

Lemma check_entries_ok items σ :
  forallb (λ entry, two_alleles entry.2) items = true →
  for_each Duo.check_entry items σ = (inr (), σ).
Proof.
  induction items as [|[k v] items IH]; [done|]. simpl.
  intros [Hv Hitems]%andb_true_iff. rewrite bind_run.
  destruct v as [[|a [|b [|? ?]]]|]; try discriminate Hv.
  simpl. auto.
Qed.

Lemma check_entries_fail items σ :
  forallb (λ entry, two_alleles entry.2) items = false →
  ∃ e, for_each Duo.check_entry items σ = (inl e, σ).
Proof.
  induction items as [|[k v] items IH]; [done|]. simpl.
  intros [Hv|Hitems]%andb_false_iff; rewrite bind_run.
  - destruct v as [[|a [|b [|? ?]]]|]; try discriminate Hv; simpl; eauto.
  - destruct v as [[|a [|b [|? ?]]]|]; simpl; eauto.
Qed.

Lemma well_formed_spec d :
  well_formed d = true ↔ map_Forall (λ _ v, two_alleles v = true) d.
Proof.
  unfold well_formed. rewrite forallb_forall, map_Forall_to_list, Forall_forall.
  split.
  - intros H [k v] Hkv. apply (H (k, v)). by apply list_elem_of_In.
  - intros H [k v] Hkv. apply (H (k, v)). by apply list_elem_of_In.
Qed.

Lemma well_formed_delete d k :
  well_formed d = true → well_formed (delete k d) = true.
Proof. rewrite !well_formed_spec. apply map_Forall_delete. Qed.

Lemma elem_of_keys (d : gmap string collection) m :
  m ∈ (map_to_list d).*1 ↔ is_Some (d !! m).
Proof.
  rewrite list_elem_of_fmap. split.
  - intros [[k v] [-> Hkv]]. apply elem_of_map_to_list in Hkv. eauto.
  - intros [v Hv]. exists (m, v). split; [done|]. by apply elem_of_map_to_list.
Qed.

Lemma elem_of_py_sorted l m : m ∈ py_sorted l ↔ m ∈ l.
Proof. unfold py_sorted. by rewrite merge_sort_Permutation. Qed.

Lemma rows_run data d markers σ :
  objects σ !! data = Some (PyDict d) →
  well_formed d = true →
  (∀ m, m ∈ markers → is_Some (d !! m)) →
  mapM (λ marker, py_getitem data marker ≫= py_tuple) markers σ
  = (inr (row d <$> markers), σ).
Proof.
  intros Hdata Hwf.
  induction markers as [|m markers IH]; intros Hin; [done|].
  destruct (Hin m) as [v Hv]; [left|].
  assert (two_alleles v = true) as Hv2.
  { apply well_formed_spec in Hwf. by apply (Hwf m). }
  destruct v as [items|]; [|discriminate].
  cbn [mapM]. rewrite !bind_run.
  unfold py_getitem at 1. rewrite Hdata, Hv. cbn [py_tuple].
  rewrite ret_run, bind_run, IH.
  - rewrite ret_run. cbn [fmap list_fmap]. unfold row at 2. by rewrite Hv.
  - intros m' Hm'. apply Hin. by right.
Qed.

(** The rows of a well-formed dictionary are pairs. *)
Lemma row_pair d m :
  well_formed d = true → is_Some (d !! m) → length (row d m) = 2%nat.
Proof.
  intros Hwf [v Hv]. apply well_formed_spec in Hwf.
  pose proof (Hwf m v Hv) as Hv2. unfold row. rewrite Hv.
  by destruct v as [[|a [|b [|? ?]]]|].
Qed.

(** [np.array] accepts rows of one length. *)
Lemma np_array_run rows n σ :
  Forall (λ row, length row = n) rows →
  np_array rows σ = (inr (np_convert rows), σ).
Proof.
  intros Hrows. unfold np_array.
  assert (forallb (λ row, bool_decide
            (length row = length (default [] (head rows)))) rows = true) as ->;
    [|done].
  apply forallb_forall. intros row Hrow%list_elem_of_In.
  apply bool_decide_eq_true. destruct rows as [|row0 rows']; [by apply elem_of_nil in Hrow|].
  rewrite Forall_forall in Hrows. simpl.
  rewrite (Hrows row Hrow). symmetry. apply Hrows. by left.
Qed.

Lemma parse_alleles_run data d markers σ :
  objects σ !! data = Some (PyDict d) →
  well_formed d = true →
  (∀ m, m ∈ markers → is_Some (d !! m)) →
  Profile._parse_alleles data markers σ
  = (inr (np_convert (row d <$> markers)), σ).
Proof.
  intros Hdata Hwf Hin. unfold Profile._parse_alleles.
  rewrite bind_run, (rows_run data d) by done.
  apply (np_array_run _ 2%nat). apply Forall_fmap, Forall_forall.
  intros m Hm. apply row_pair; auto.
Qed.

Lemma profile_init_run data d σ :
  objects σ !! data = Some (PyDict d) →
  well_formed d = true →
  Profile.__init__ data σ = (inr (loaded data d), σ).
Proof.
  intros Hdata Hwf. unfold Profile.__init__, Profile._parse_markers.
  rewrite !bind_run. unfold py_keys at 1. rewrite Hdata, ret_run.
  rewrite bind_run, (parse_alleles_run data d); [done..|].
  intros m. rewrite elem_of_py_sorted. apply elem_of_keys.
Qed.

Lemma without_AMEL_absent data d σ :
  objects σ !! data = Some (PyDict d) →
  d !! "AMEL" = None →
  without_AMEL data d σ = σ.
Proof.
  intros Hdata Hd. unfold without_AMEL.
  rewrite delete_id by done. rewrite insert_id by done. by destruct σ.
Qed.

Lemma load_profile_dict data d σ :
  objects σ !! data = Some (PyDict d) →
  Duo._load_profile data σ =
    if well_formed d
    then (inr (loaded data (delete "AMEL" d)), without_AMEL data d σ)
    else (inl ValueError, σ).
Proof.
  intros Hdata. unfold Duo._load_profile. rewrite bind_run.
  unfold try_except. rewrite bind_run.
  unfold py_isinstance_dict at 1. rewrite Hdata. cbn [negb].
  rewrite bind_run. unfold py_items at 1. rewrite Hdata.
  destruct (well_formed d) eqn:Hwf.
  2:{ destruct (check_entries_fail _ σ Hwf) as [e ->]. done. }
  rewrite check_entries_ok by done.
  rewrite bind_run. unfold py_keys at 1. rewrite Hdata.
  rewrite bind_run. case_bool_decide as Hin.
  - apply elem_of_keys in Hin as [v Hv].
    unfold py_delitem. rewrite Hdata, Hv.
    fold (without_AMEL data d σ).
    apply profile_init_run; [|by apply well_formed_delete].
    unfold without_AMEL; simpl. by rewrite lookup_insert_eq.
  - rewrite ret_run.
    assert (d !! "AMEL" = None) as Hnone.
    { apply eq_None_not_Some. by rewrite <-elem_of_keys. }
    rewrite without_AMEL_absent, delete_id by done.
    by apply profile_init_run.
Qed.

Lemma load_profile_not_dict data σ :
  (∀ d, objects σ !! data ≠ Some (PyDict d)) →
  Duo._load_profile data σ = (inl ValueError, σ).
Proof.
  intros Hdata. unfold Duo._load_profile. rewrite bind_run.
  unfold try_except. rewrite bind_run.
  unfold py_isinstance_dict at 1.
  destruct (objects σ !! data) as [[d| |]|] eqn:Ho; try done.
  by destruct (Hdata d).
Qed.

(** ** The constructor of [Duo] *)

Lemma py_sorted_keys_eq (d1 d2 : gmap string collection) :
  py_sorted (map_to_list d1).*1 = py_sorted (map_to_list d2).*1 ↔
  dom d1 = dom d2.
Proof.
  split.
  - intros Heq. apply set_eq. intros m. rewrite !elem_of_dom.
    rewrite <-!elem_of_keys.
    rewrite <-(elem_of_py_sorted (map_to_list d1).*1).
    rewrite <-(elem_of_py_sorted (map_to_list d2).*1). by rewrite Heq.
  - intros Hdom. unfold py_sorted.
    apply (Sorted_unique String.le); try apply Sorted_merge_sort; try apply _.
    rewrite !merge_sort_Permutation.
    apply NoDup_Permutation; try apply NoDup_fst_map_to_list.
    intros m. rewrite !elem_of_keys, <-!elem_of_dom. by rewrite Hdom.
Qed.

Lemma keys_check_dicts parent child dp dc σ :
  objects σ !! parent = Some (PyDict dp) →
  objects σ !! child = Some (PyDict dc) →
  try_except
    (pkeys ← py_keys parent;
     ckeys ← py_keys child;
     if bool_decide (py_sorted pkeys ≠ py_sorted ckeys)
     then raise ValueError else mret ())
    (λ e, match e with
          | ValueError => Some (raise ValueError)
          | _ => None
          end) σ
  = (if bool_decide (dom dp = dom dc) then inr () else inl ValueError, σ).
Proof.
  intros Hp Hc. unfold try_except. rewrite bind_run.
  unfold py_keys at 1. rewrite Hp. rewrite bind_run.
  unfold py_keys at 1. rewrite Hc.
  rewrite (bool_decide_ext _ (dom dp ≠ dom dc)).
  2:{ by rewrite py_sorted_keys_eq. }
  rewrite bool_decide_not. by destruct (bool_decide (dom dp = dom dc)).
Qed.

Lemma get_markers_run parent child σ :
  Duo._get_markers parent child σ =
    (if bool_decide (Profile.markers parent = Profile.markers child)
     then inr (Profile.markers parent) else inl ValueError, σ).
Proof.
  unfold Duo._get_markers. rewrite bind_run. unfold try_except.
  rewrite bool_decide_not.
  by destruct (bool_decide (Profile.markers parent = Profile.markers child)).
Qed.

(** What the constructor does with two dictionaries. *)
Lemma init_dicts σ parent child population dp dc :
  objects σ !! parent = Some (PyDict dp) →
  objects σ !! child = Some (PyDict dc) →
  Duo.__init__ parent child population σ =
    if bool_decide (dom dp = dom dc) && well_formed dc && well_formed dp
    then (inr (Duo.Build (loaded child (delete "AMEL" dc))
                         (loaded parent (delete "AMEL" dp))
                         (py_sorted (map_to_list (delete "AMEL" dp)).*1)
                         population),
          without_AMEL parent dp (without_AMEL child dc σ))
    else (inl ValueError,
          if bool_decide (dom dp = dom dc) && well_formed dc
          then without_AMEL child dc σ else σ).
Proof.
  intros Hp Hc. unfold Duo.__init__.
  rewrite bind_run, (keys_check_dicts _ _ dp dc) by done.
  case_bool_decide as Hdom; [|done]. cbn [andb].
  rewrite bind_run, (load_profile_dict child dc) by done.
  destruct (well_formed dc) eqn:Hwfc; [|done]. cbn [andb].
  set (σ1 := without_AMEL child dc σ).
  assert (∃ dp1, objects σ1 !! parent = Some (PyDict dp1) ∧
                 well_formed dp1 = well_formed dp ∧
                 delete "AMEL" dp1 = delete "AMEL" dp) as (dp1 & Hp1 & Hwf1 & Hdel).
  { unfold σ1, without_AMEL; simpl. destruct (decide (child = parent)) as [->|Hne].
    - rewrite lookup_insert_eq. assert (dp = dc) as -> by congruence.
      eexists; split; [done|]. split.
      + rewrite Hwfc. by apply well_formed_delete.
      + by rewrite delete_delete_eq.
    - rewrite lookup_insert_ne by done. eauto. }
  rewrite bind_run, (load_profile_dict parent dp1) by done.
  rewrite Hwf1. destruct (well_formed dp) eqn:Hwfp; [|done].
  rewrite bind_run, get_markers_run.
  assert (without_AMEL parent dp1 σ1 = without_AMEL parent dp σ1) as ->.
  { unfold without_AMEL. by rewrite Hdel. }
  rewrite Hdel, bool_decide_true; [done|].
  cbn [loaded Profile.markers]. apply py_sorted_keys_eq.
  by rewrite !dom_delete_L, Hdom.
Qed.

(** On two dictionaries the constructor raises [ValueError] exactly when the
    marker sets differ or an entry is not a collection of length 2, and
    returns a case otherwise. *)
Lemma init_dicts_outcome σ parent child population dp dc :
  objects σ !! parent = Some (PyDict dp) →
  objects σ !! child = Some (PyDict dc) →
  ((Duo.__init__ parent child population σ).1 = inl ValueError ↔
   dom dp ≠ dom dc ∨ well_formed dp = false ∨ well_formed dc = false) ∧
  ((∃ self, (Duo.__init__ parent child population σ).1 = inr self) ↔
   dom dp = dom dc ∧ well_formed dp = true ∧ well_formed dc = true).
Proof.
  intros Hp Hc. rewrite (init_dicts σ parent child population dp dc) by done.
  case_bool_decide as Hdom; destruct (well_formed dc), (well_formed dp);
    simpl; (split; split; intros Hyp);
    first [ discriminate
          | by eexists
          | by auto
          | by intuition
          | by destruct Hyp as [? ?] ].
Qed.

(** An object without [keys()] makes the constructor raise [AttributeError]:
    the call [parent.keys()] comes before the [isinstance] check of
    [_load_profile]. *)
Lemma init_parent_without_keys σ parent child population :
  objects σ !! parent = Some PyOther →
  Duo.__init__ parent child population σ = (inl AttributeError, σ).
Proof.
  intros Hp. unfold Duo.__init__. rewrite bind_run. unfold try_except.
  rewrite bind_run. unfold py_keys at 1. by rewrite Hp.
Qed.

(** A non-dictionary that has [keys()] is refused with [ValueError]. *)
Lemma init_keyed_not_dict σ parent child population ks o :
  objects σ !! parent = Some (PyKeyed ks) →
  objects σ !! child = Some o →
  o ≠ PyOther →
  (Duo.__init__ parent child population σ).1 = inl ValueError.
Proof.
  intros Hp Hc Ho. unfold Duo.__init__. rewrite bind_run. unfold try_except.
  rewrite bind_run. unfold py_keys at 1. rewrite Hp. rewrite bind_run.
  unfold py_keys at 1. rewrite Hc.
  destruct o as [dc|ks'|]; [| |done].
  - case_bool_decide; [done|]. rewrite ret_run, bind_run.
    rewrite (load_profile_dict child dc) by done.
    destruct (well_formed dc); [|done].
    rewrite bind_run, load_profile_not_dict; [done|].
    intros d. unfold without_AMEL; simpl.
    destruct (decide (child = parent)) as [->|Hne]; [congruence|].
    rewrite lookup_insert_ne by done. congruence.
  - case_bool_decide; [done|]. rewrite ret_run, bind_run.
    rewrite load_profile_not_dict; [done|]. congruence.
Qed.

(** C6: the constructor does not turn every malformed input into the
    [ValueError] of its input checks.  A parent that is not a mapping (a
    list, say) makes [parent.keys()] raise [AttributeError]. *)
Lemma init_list_as_parent :
  let σ := caller PyOther (PyDict {["CSF1PO" := pair 13 14]}) ∅ in
  (Duo.__init__ 0 1 0 σ).1 = inl AttributeError ∧
  (Duo.__init__ 0 1 0 σ).1 ≠ inl ValueError.
Proof. split; vm_compute; [reflexivity|discriminate]. Qed.

(** C10, as stated, fails: the key ["AMEL"] in the parent's or the child's
    dictionary is not always deleted.  With ["AMEL"] in the parent's
    dictionary only, the marker names of the two dictionaries differ, the
    constructor raises [ValueError] at its first test, and the parent's
    dictionary is left as it was, ["AMEL"] included. *)
Lemma AMEL_kept_when_refused :
  let dp : gmap string collection :=
    {["AMEL" := pair 1 2; "CSF1PO" := pair 13 14]} in
  let dc : gmap string collection := {["CSF1PO" := pair 13 16]} in
  let σ := caller (PyDict dp) (PyDict dc) ∅ in
  is_Some (dp !! "AMEL") ∧
  (Duo.__init__ 0 1 0 σ).1 = inl ValueError ∧
  objects (Duo.__init__ 0 1 0 σ).2 !! 0%nat = Some (PyDict dp) ∧
  ¬ ∃ dp', objects (Duo.__init__ 0 1 0 σ).2 !! 0%nat = Some (PyDict dp') ∧
           dp' !! "AMEL" = None.
Proof.
  intros dp dc σ.
  assert (objects (Duo.__init__ 0 1 0 σ).2 !! 0%nat = Some (PyDict dp)) as Hkept
    by (vm_compute; reflexivity).
  split; [by eexists|]. split; [vm_compute; reflexivity|].
  split; [exact Hkept|].
  intros (dp' & Hdp' & Hgone). rewrite Hkept in Hdp'.
  injection Hdp' as <-. vm_compute in Hgone. discriminate Hgone.
Qed.

(** C10, amended: when the constructor is given two dictionaries and returns
    a case, the caller's own dictionaries have lost the key ["AMEL"] and kept
    every other entry; the profiles of the case hold those very objects, not
    copies; nothing else in the store has changed. *)
Theorem init_deletes_AMEL_in_place σ parent child population self σ' dp dc :
  objects σ !! parent = Some (PyDict dp) →
  objects σ !! child = Some (PyDict dc) →
  Duo.__init__ parent child population σ = (inr self, σ') →
  ∃ dp' dc',
    objects σ' !! parent = Some (PyDict dp') ∧
    objects σ' !! child = Some (PyDict dc') ∧
    dp' !! "AMEL" = None ∧ dc' !! "AMEL" = None ∧
    (∀ k, k ≠ "AMEL" → dp' !! k = dp !! k ∧ dc' !! k = dc !! k) ∧
    Profile.profile (Duo.parent self) = parent ∧
    Profile.profile (Duo.child self) = child ∧
    (∀ l, l ≠ parent → l ≠ child → objects σ' !! l = objects σ !! l) ∧
    tables σ' = tables σ.
Proof.
  intros Hp Hc. rewrite (init_dicts σ parent child population dp dc) by done.
  destruct (_ && _ && _); [|discriminate]. intros [= <- <-].
  exists (delete "AMEL" dp), (delete "AMEL" dc).
  unfold without_AMEL; simpl. repeat split.
  - by rewrite lookup_insert_eq.
  - destruct (decide (parent = child)) as [->|Hne].
    + rewrite lookup_insert_eq. congruence.
    + rewrite lookup_insert_ne, lookup_insert_eq by done. done.
  - apply lookup_delete_eq.
  - apply lookup_delete_eq.
  - by apply lookup_delete_ne.
  - by apply lookup_delete_ne.
  - intros l Hlp Hlc. by rewrite !lookup_insert_ne.
Qed.

Lemma init_deletes_AMEL_in_place_witness :
  let dp := {["AMEL" := pair 1 2; "CSF1PO" := pair 13 14]} in
  let dc := {["AMEL" := pair 1 1; "CSF1PO" := pair 13 16]} in
  let σ := caller (PyDict dp) (PyDict dc) ∅ in
  objects σ !! 0%nat = Some (PyDict dp) ∧
  objects σ !! 1%nat = Some (PyDict dc) ∧
  ∃ self σ',
    Duo.__init__ 0 1 0 σ = (inr self, σ') ∧
    ∃ dp' dc',
      objects σ' !! 0%nat = Some (PyDict dp') ∧
      objects σ' !! 1%nat = Some (PyDict dc') ∧
      dp' !! "AMEL" = None ∧ dc' !! "AMEL" = None ∧
      (∀ k, k ≠ "AMEL" → dp' !! k = dp !! k ∧ dc' !! k = dc !! k) ∧
      Profile.profile (Duo.parent self) = 0%nat ∧
      Profile.profile (Duo.child self) = 1%nat ∧
      (∀ l, l ≠ 0%nat → l ≠ 1%nat → objects σ' !! l = objects σ !! l) ∧
      tables σ' = tables σ.
Proof.
  intros dp dc σ.
  assert (∃ self σ', Duo.__init__ 0 1 0 σ = (inr self, σ'))
    as (self & σ' & Hrun).
  { eexists _, _. vm_compute. reflexivity. }
  split; [reflexivity|]. split; [reflexivity|].
  exists self, σ'. split; [exact Hrun|].
  apply (init_deletes_AMEL_in_place σ 0%nat 1%nat 0%nat self σ' dp dc);
    [reflexivity|reflexivity|exact Hrun].
Defined.

(** ** The worked example with one shared allele *)

(** Second row of the table of ratios: both pairs heterozygous with exactly
    one shared allele [s] multiply [calc] by 0.25 / f(s). *)
Lemma marker_step_one_shared pop calc p c s f σ :
  Duo.is_heterozygous p = true →
  Duo.is_heterozygous c = true →
  np_intersect1d p c = [s] →
  pop !! s = Some f →
  PrimFloat.eqb f 0 = false →
  Duo.marker_step pop calc p c σ = py_imul calc (0.25 / f) σ.
Proof.
  intros Hp Hc Hs Hf Hf0. unfold Duo.marker_step.
  rewrite Hp, Hc, Hs. cbn [andb negb length py_index lookup list_lookup].
  rewrite bool_decide_false by done.
  rewrite !bind_run, ret_run, bind_run.
  unfold freq_getitem at 1. rewrite Hf, ret_run, bind_run.
  unfold py_truediv at 1. rewrite Hf0, ret_run.
  destruct (py_imul calc (0.25 / f) σ) as [[e|v] σ'] eqn:Hmul; [done|].
  by rewrite !bind_run, !ret_run.
Qed.

(** C7: for parent [{CSF1PO: [13, 14]}] and child [{CSF1PO: [13, 16]}], and
    any population table with f(13) = 0.2 in which 16 is present, the marker
    is consistent and [paternity_index] is 0.25 / f(13) = 1.25. *)
Theorem one_shared_allele_ratio (pop : gmap Z float) :
  pop !! 13 = Some 0.2%float →
  is_Some (pop !! 16) →
  let σ := caller (PyDict {["CSF1PO" := pair 13 14]})
                  (PyDict {["CSF1PO" := pair 13 16]})
                  {["CSF1PO" := pop]} in
  (duo_inconsistent_markers σ).1 = inr (PyInt 0) ∧
  (duo_paternity_index σ).1 = inr (PyFloat (0.25 / 0.2)) ∧
  (0.25 / 0.2 = 1.25)%float.
Proof.
  intros H13 _ σ.
  set (dp := {["CSF1PO" := pair 13 14]} : gmap string collection).
  set (dc := {["CSF1PO" := pair 13 16]} : gmap string collection).
  set (self := Duo.Build (Profile.Build 1 ["CSF1PO"] [[13; 16]])
                         (Profile.Build 0 ["CSF1PO"] [[13; 14]])
                         ["CSF1PO"] 0).
  set (σ' := without_AMEL 0 dp (without_AMEL 1 dc σ)).
  assert (Duo.__init__ 0 1 0 σ = (inr self, σ')) as Hinit.
  { rewrite (init_dicts σ 0%nat 1%nat 0%nat dp dc) by reflexivity.
    assert (bool_decide (dom dp = dom dc) && well_formed dc && well_formed dp
            = true) as -> by (vm_compute; reflexivity).
    reflexivity. }
  assert (Duo.inconsistent_markers self σ' = (inr (PyInt 0), σ')) as Hflag
    by reflexivity.
  split; [|split; [|reflexivity]].
  - unfold duo_inconsistent_markers. by rewrite bind_run, Hinit, Hflag.
  - unfold duo_paternity_index. rewrite bind_run, Hinit.
    unfold Duo.paternity_index. rewrite bind_run, Hflag.
    cbn [py_bool]. rewrite bool_decide_false by (intros Hne; by apply Hne).
    cbn [Duo.markers Duo.parent Duo.child Profile.alleles self zip zip_with
         for_acc Duo.population].
    rewrite !bind_run.
    assert (table_getitem 0 "CSF1PO" σ' = (inr pop, σ')) as -> by reflexivity.
    rewrite (marker_step_one_shared pop _ _ _ 13 0.2%float);
      [reflexivity|reflexivity|reflexivity|reflexivity|exact H13|reflexivity].
Qed.

Lemma one_shared_allele_ratio_witness :
  let pop : gmap Z float := {[13 := 0.2%float; 14 := 0.3%float;
                              16 := 0.1%float]} in
  let σ := caller (PyDict {["CSF1PO" := pair 13 14]})
                  (PyDict {["CSF1PO" := pair 13 16]})
                  {["CSF1PO" := pop]} in
  pop !! 13 = Some 0.2%float ∧
  is_Some (pop !! 16) ∧
  (duo_inconsistent_markers σ).1 = inr (PyInt 0) ∧
  (duo_paternity_index σ).1 = inr (PyFloat (0.25 / 0.2)) ∧
  (0.25 / 0.2 = 1.25)%float.
Proof.
  intros pop σ.
  split; [reflexivity|]. split; [by eexists|].
  apply (one_shared_allele_ratio pop); [reflexivity|by eexists].
Defined.

(** ** Inconsistent markers *)

(** The loop of [inconsistent_markers] keeps the markers whose test fails, in
    the order of the markers. *)
Lemma flag_loop (f g : string → list Z) markers acc :
  foldl (λ inconsistent_markers '(marker, (p_alleles, c_alleles)),
           if bool_decide (length (Duo._check p_alleles c_alleles) ≠ 1%nat)
           then inconsistent_markers ++ [marker]
           else inconsistent_markers)
        acc (zip markers (zip (f <$> markers) (g <$> markers)))
  = acc ++ filter (λ m, length (Duo._check (f m) (g m)) ≠ 1%nat) markers.
Proof.
  revert acc. induction markers as [|m markers IH]; intros acc.
  - by rewrite app_nil_r.
  - cbn [fmap list_fmap zip zip_with foldl]. rewrite IH.
    rewrite filter_cons. case_bool_decide.
    + destruct (decide _); [by rewrite <-app_assoc|done].
    + destruct (decide _) as [Hne|]; [|done]. by destruct Hne.
Qed.

(** Of a pair of alleles, those outside the parent's and those among the
    parent's add up to two. *)
Lemma check_plus_shared (P C : list Z) :
  (length (Duo._check P C) + length (filter (λ a, a ∈ P) C) = length C)%nat.
Proof.
  unfold Duo._check. induction C as [|a C IH]; [done|].
  rewrite !filter_cons. destruct (decide (a ∈ P)).
  - rewrite decide_False by tauto. simpl. lia.
  - rewrite decide_True by done. simpl. lia.
Qed.

(** ** The array of a profile *)

Lemma loaded_alleles data d :
  Profile.alleles (loaded data d) = stored d <$> py_sorted (map_to_list d).*1.
Proof.
  cbn [loaded Profile.alleles]. unfold np_convert.
  by rewrite <-list_fmap_compose.
Qed.

Lemma np_result_type_int64 xs :
  xs ≠ [] → forallb in_int64 xs = true → np_result_type xs = int64.
Proof.
  destruct xs as [|x xs]; [done|]. intros _ [Hx Hxs]%andb_true_iff.
  cbn [np_result_type].
  assert (∀ y, in_int64 y = true → np_discover y = int64) as Hd.
  { intros y Hy%bool_decide_eq_true. unfold np_discover.
    by rewrite bool_decide_true. }
  rewrite (Hd x Hx). clear Hx. induction xs as [|y xs IH]; [done|].
  apply andb_true_iff in Hxs as [Hy Hxs]. cbn [foldl].
  rewrite (Hd y Hy). cbn [np_promote]. by apply IH.
Qed.

Lemma np_astype_int64 row : np_astype int64 row = row.
Proof. unfold np_astype. apply list_fmap_id. Qed.

Lemma int64_alleles_spec d m items :
  int64_alleles d = true → m ≠ "AMEL" → d !! m = Some (Sized items) →
  forallb in_int64 items = true.
Proof.
  unfold int64_alleles. rewrite forallb_forall. intros Hd Hm Hitems.
  specialize (Hd (m, Sized items)). simpl in Hd.
  rewrite bool_decide_false in Hd by done. apply Hd.
  by apply list_elem_of_In, elem_of_map_to_list.
Qed.

(** The array of a dictionary whose alleles fit 64 signed bits holds the
    alleles as the dictionary has them. *)
Lemma stored_int64 d m :
  int64_alleles d = true →
  stored (delete "AMEL" d) m = row (delete "AMEL" d) m.
Proof.
  intros Hd. unfold stored, array_dtype.
  set (d' := delete "AMEL" d).
  set (markers := py_sorted (map_to_list d').*1).
  assert (∀ k, forallb in_int64 (row d' k) = true) as Hrow.
  { intros k. unfold row, d'. destruct (decide (k = "AMEL")) as [->|Hk].
    - by rewrite lookup_delete_eq.
    - rewrite lookup_delete_ne by done.
      destruct (d !! k) as [[items|]|] eqn:Hitems; [|done..].
      by eapply int64_alleles_spec. }
  destruct (mjoin (row d' <$> markers)) as [|x xs] eqn:Hrows.
  - destruct (row d' m) as [|a l] eqn:Hm; [done|].
    assert (m ∈ markers) as Hin.
    { unfold markers. rewrite elem_of_py_sorted, elem_of_keys.
      unfold row in Hm. by destruct (d' !! m). }
    apply (list_elem_of_fmap_2 (row d')) in Hin.
    assert (a ∈ mjoin (row d' <$> markers)) as Ha.
    { apply list_elem_of_join. exists (row d' m). split; [|done].
      rewrite Hm. by left. }
    rewrite Hrows in Ha. by apply elem_of_nil in Ha.
  - rewrite <-Hrows, np_result_type_int64; [apply np_astype_int64|by rewrite Hrows|].
    apply forallb_forall. intros a Ha%list_elem_of_In.
    apply list_elem_of_join in Ha as (l & Ha & Hl).
    apply list_elem_of_fmap in Hl as (k & -> & _).
    specialize (Hrow k). rewrite forallb_forall in Hrow.
    by apply Hrow, list_elem_of_In.
Qed.

(** The markers flagged in a constructed case: a marker of the two
    dictionaries, other than ["AMEL"], is flagged exactly when the number of
    the child's alleles found in the parent's pair, both as their arrays
    hold them, is not one, so when it is zero or two. *)
Lemma flagged_markers_stored σ parent child population dp dc self σ' :
  objects σ !! parent = Some (PyDict dp) →
  objects σ !! child = Some (PyDict dc) →
  Duo.__init__ parent child population σ = (inr self, σ') →
  ∀ m, m ≠ "AMEL" → is_Some (dp !! m) →
    m ∈ Duo.flagged_markers self ↔
    length (filter (λ a, a ∈ stored (delete "AMEL" dp) m)
                   (stored (delete "AMEL" dc) m)) ≠ 1%nat.
Proof.
  intros Hp Hc. rewrite (init_dicts σ parent child population dp dc) by done.
  case_bool_decide as Hdom; [|discriminate].
  destruct (well_formed dc) eqn:Hwfc; [|discriminate].
  destruct (well_formed dp) eqn:Hwfp; [|discriminate].
  intros [= <- <-] m Hm HP.
  assert (is_Some (dc !! m)) as HC.
  { apply elem_of_dom. rewrite <-Hdom. by apply elem_of_dom. }
  unfold Duo.flagged_markers. cbn [Duo.parent Duo.child].
  rewrite !loaded_alleles. cbn [loaded Profile.markers].
  assert (py_sorted (map_to_list (delete "AMEL" dc)).*1
          = py_sorted (map_to_list (delete "AMEL" dp)).*1) as ->.
  { apply py_sorted_keys_eq. by rewrite !dom_delete_L, Hdom. }
  rewrite flag_loop, app_nil_l, list_elem_of_filter.
  assert (length (stored (delete "AMEL" dc) m) = 2%nat) as HlenC.
  { unfold stored, np_astype. rewrite length_fmap. apply row_pair.
    - by apply well_formed_delete.
    - by rewrite lookup_delete_ne. }
  pose proof (check_plus_shared (stored (delete "AMEL" dp) m)
                                (stored (delete "AMEL" dc) m)) as Hsum.
  rewrite elem_of_py_sorted, elem_of_keys, lookup_delete_ne by done.
  split; [intros [? _]; lia|]. intros ?. split; [lia|done].
Qed.

(** For dictionaries whose alleles fit 64 signed bits the arrays hold the
    pairs of the dictionaries, and the count is that of the alleles
    themselves. *)
Lemma flagged_markers_constructed σ parent child population dp dc self σ' :
  objects σ !! parent = Some (PyDict dp) →
  objects σ !! child = Some (PyDict dc) →
  Duo.__init__ parent child population σ = (inr self, σ') →
  int64_alleles dp = true → int64_alleles dc = true →
  ∀ m P C,
    m ≠ "AMEL" → dp !! m = Some (Sized P) → dc !! m = Some (Sized C) →
    m ∈ Duo.flagged_markers self ↔ length (filter (λ a, a ∈ P) C) ≠ 1%nat.
Proof.
  intros Hp Hc Hinit Hip Hic m P C Hm HP HC.
  rewrite (flagged_markers_stored _ _ _ _ _ _ _ _ Hp Hc Hinit m) by done.
  rewrite !stored_int64 by done.
  unfold row. by rewrite !lookup_delete_ne, HP, HC by done.
Qed.

(** When no inconsistent marker is named by the empty string, [any] tells
    whether there is one. *)
Lemma py_any_named l : "" ∉ l → py_any l = bool_decide (l ≠ []).
Proof.
  intros Hl. destruct l as [|m l]; [done|].
  rewrite (bool_decide_true (_ ≠ [])) by done.
  unfold py_any. simpl. rewrite bool_decide_true; [done|].
  intros ->. apply Hl. by left.
Qed.

(** What holds of C3: in a constructed case none of whose markers is named
    by the empty string and whose alleles fit 64 signed bits, the result of
    [inconsistent_markers] lists a shared marker exactly when zero or two
    alleles of the child appear in the parent's pair. *)
Lemma inconsistent_markers_named σ parent child population dp dc self σ' :
  objects σ !! parent = Some (PyDict dp) →
  objects σ !! child = Some (PyDict dc) →
  Duo.__init__ parent child population σ = (inr self, σ') →
  dp !! "" = None →
  int64_alleles dp = true → int64_alleles dc = true →
  ∃ v, Duo.inconsistent_markers self σ' = (inr v, σ') ∧
    (v = PyInt 0 ∨ ∃ l, v = PyList l ∧ l ≠ []) ∧
    ∀ m P C,
      m ≠ "AMEL" → dp !! m = Some (Sized P) → dc !! m = Some (Sized C) →
      listed v m ↔ length (filter (λ a, a ∈ P) C) ≠ 1%nat.
Proof.
  intros Hp Hc Hinit Hname Hip Hic.
  pose proof (flagged_markers_constructed _ _ _ _ _ _ _ _ Hp Hc Hinit Hip Hic)
    as Hflag.
  assert ("" ∉ Duo.flagged_markers self) as Hno.
  { revert Hinit. rewrite (init_dicts σ parent child population dp dc) by done.
    case_bool_decide as Hdom; [|discriminate].
    destruct (well_formed dc), (well_formed dp); try discriminate.
    intros [= <- <-]. unfold Duo.flagged_markers.
    cbn [Duo.parent Duo.child]. rewrite !loaded_alleles.
    cbn [loaded Profile.markers].
    assert (py_sorted (map_to_list (delete "AMEL" dc)).*1
            = py_sorted (map_to_list (delete "AMEL" dp)).*1) as ->.
    { apply py_sorted_keys_eq. by rewrite !dom_delete_L, Hdom. }
    rewrite flag_loop, app_nil_l, list_elem_of_filter.
    rewrite elem_of_py_sorted, elem_of_keys, lookup_delete_ne, Hname by done.
    intros [_ [? ?]]. discriminate. }
  unfold Duo.inconsistent_markers. rewrite ret_run, (py_any_named _ Hno).
  eexists. split; [reflexivity|].
  case_bool_decide as Hnil.
  - split; [right; eauto|]. intros m P C Hm HP HC. simpl. by apply Hflag.
  - split; [by left|]. intros m P C Hm HP HC. simpl.
    rewrite <-(Hflag m P C) by done.
    assert (Duo.flagged_markers self = []) as ->.
    { by destruct (Duo.flagged_markers self); [|destruct Hnil]. }
    by rewrite elem_of_nil.
Qed.

(** C3: [inconsistent_markers] does not list every marker of which zero or
    two alleles of the child appear in the parent's pair.  With the single
    marker named by the empty string, both alleles of the child appear in the
    parent's pair and the loop flags the marker, but [any] of the list [['']]
    is false and the result is 0. *)
Lemma inconsistent_markers_unnamed_marker :
  let σ := caller (PyDict {["" := pair 13 14]})
                  (PyDict {["" := pair 13 14]}) ∅ in
  length (filter (λ a, a ∈ [13; 14]) [13; 14]) = 2%nat ∧
  (∃ self σ', Duo.__init__ 0 1 0 σ = (inr self, σ') ∧
              Duo.flagged_markers self = [""]) ∧
  (duo_inconsistent_markers σ).1 = inr (PyInt 0) ∧
  ¬ listed (PyInt 0) "".
Proof.
  intros σ. split; [reflexivity|]. split; [|split; [|by intros []]].
  - eexists _, _. split; [vm_compute; reflexivity|]. vm_compute. reflexivity.
  - vm_compute. reflexivity.
Qed.

(** ** Homozygous children *)

Lemma homozygous_not_heterozygous a : Duo.is_heterozygous [a; a] = false.
Proof.
  unfold Duo.is_heterozygous, np_unique. cbn [remove_dups].
  destruct (decide_rel elem_of a [a]) as [_|Hn]; [done|].
  destruct Hn. by left.
Qed.

(** The two equal alleles of a homozygous child are both among the parent's
    or both outside: the count that must be 1 is 0 or 2. *)
Lemma homozygous_child_check P a : length (Duo._check P [a; a]) ≠ 1%nat.
Proof.
  unfold Duo._check. rewrite !filter_cons, filter_nil.
  by destruct (decide (a ∉ P)).
Qed.

(** The diagnostic as [paternity_index] words it. *)
Lemma paternity_index_flagged self σ :
  py_any (Duo.flagged_markers self) = true →
  Duo.paternity_index self σ =
    (inr (PyStr ("There are "
                 +:+ pretty (length (Duo.flagged_markers self))
                 +:+ " inconsistent markers.")), σ).
Proof.
  intros Hany. unfold Duo.paternity_index, Duo.inconsistent_markers.
  rewrite bind_run, ret_run, Hany. cbn [py_bool].
  rewrite bool_decide_true.
  - by rewrite bind_run, ret_run.
  - intros Hnil. by rewrite Hnil in Hany.
Qed.

(** What holds of C9: in a constructed case none of whose markers is named by
    the empty string, a marker with a homozygous child makes
    [paternity_index] return the diagnostic. *)
Lemma homozygous_child_diagnostic σ parent child population dp dc self σ' :
  objects σ !! parent = Some (PyDict dp) →
  objects σ !! child = Some (PyDict dc) →
  Duo.__init__ parent child population σ = (inr self, σ') →
  dp !! "" = None →
  ∀ m P a,
    m ≠ "AMEL" → dp !! m = Some (Sized P) → dc !! m = Some (pair a a) →
    ∃ v, Duo.paternity_index self σ' = (inr v, σ') ∧ diagnostic v = true.
Proof.
  intros Hp Hc Hinit Hname m P a Hm HP HC.
  assert (m ∈ Duo.flagged_markers self) as Hin.
  { apply (flagged_markers_stored _ _ _ _ _ _ _ _ Hp Hc Hinit m); [done..|].
    set (P' := stored (delete "AMEL" dp) m).
    unfold stored at 1, row. rewrite lookup_delete_ne, HC by done.
    cbn [pair np_astype fmap list_fmap].
    pose proof (check_plus_shared P' [np_cast (array_dtype (delete "AMEL" dc)) a;
                                      np_cast (array_dtype (delete "AMEL" dc)) a])
      as Hsum.
    pose proof (homozygous_child_check P'
                  (np_cast (array_dtype (delete "AMEL" dc)) a)).
    simpl in Hsum. lia. }
  eexists. split.
  - apply paternity_index_flagged.
    unfold py_any. apply existsb_exists. exists m.
    split; [by apply list_elem_of_In|]. simpl. apply bool_decide_eq_true.
    intros ->. congruence.
  - reflexivity.
Qed.

(** C9: a homozygous child does not always lead to the diagnostic.  When the
    only marker is named by the empty string the marker is flagged, yet
    [inconsistent_markers] is 0 and the ratio is computed: a heterozygous
    parent with a homozygous child gives 0.5 / f(13), and two homozygous
    pairs reach the last branch. *)
Lemma homozygous_child_unnamed_marker :
  let pop : gmap Z float := {[13 := 0.2%float; 14 := 0.3%float;
                              0 := 13%float]} in
  let σ1 := caller (PyDict {["" := pair 13 14]})
                   (PyDict {["" := pair 13 13]}) {["" := pop]} in
  let σ2 := caller (PyDict {["" := pair 13 13]})
                   (PyDict {["" := pair 13 13]}) {["" := pop]} in
  (∃ self σ', Duo.__init__ 0 1 0 σ1 = (inr self, σ') ∧
              Duo.flagged_markers self = [""]) ∧
  (duo_paternity_index σ1).1 = inr (PyFloat (0.5 / 0.2)) ∧
  (duo_paternity_index σ2).1 = inr (PyFloat (1 / 0.2)) ∧
  numeric (PyFloat (0.5 / 0.2)) = true.
Proof.
  intros pop σ1 σ2. split; [|repeat split; vm_compute; reflexivity].
  eexists _, _. split; [vm_compute; reflexivity|]. vm_compute. reflexivity.
Qed.

(** ** The diagnostic *)

(** C4, as stated, fails: the diagnostic is a Python string in the place of
    the number, and it does not identify the inconsistent markers.  Two cases
    with different inconsistent markers have the same [paternity_index], so
    no function recovers the markers from it. *)
Lemma diagnostic_hides_markers :
  let σ1 := caller (PyDict {["CSF1PO" := pair 13 14]})
                   (PyDict {["CSF1PO" := pair 13 14]}) ∅ in
  let σ2 := caller (PyDict {["TH01" := pair 6 7]})
                   (PyDict {["TH01" := pair 8 9]}) ∅ in
  (duo_inconsistent_markers σ1).1 = inr (PyList ["CSF1PO"]) ∧
  (duo_inconsistent_markers σ2).1 = inr (PyList ["TH01"]) ∧
  (duo_paternity_index σ1).1 = inr (PyStr "There are 1 inconsistent markers.") ∧
  (duo_paternity_index σ2).1 = inr (PyStr "There are 1 inconsistent markers.") ∧
  ¬ ∃ markers_of : pyvalue → list string,
      ∀ σ v l,
        (duo_paternity_index σ).1 = inr v →
        (duo_inconsistent_markers σ).1 = inr (PyList l) →
        markers_of v = l.
Proof.
  intros σ1 σ2.
  assert ((duo_inconsistent_markers σ1).1 = inr (PyList ["CSF1PO"])) as Hm1
    by (vm_compute; reflexivity).
  assert ((duo_inconsistent_markers σ2).1 = inr (PyList ["TH01"])) as Hm2
    by (vm_compute; reflexivity).
  assert ((duo_paternity_index σ1).1
          = inr (PyStr "There are 1 inconsistent markers.")) as Hv1
    by (vm_compute; reflexivity).
  assert ((duo_paternity_index σ2).1
          = inr (PyStr "There are 1 inconsistent markers.")) as Hv2
    by (vm_compute; reflexivity).
  repeat split; try assumption.
  intros [markers_of H].
  pose proof (H σ1 _ _ Hv1 Hm1) as H1.
  pose proof (H σ2 _ _ Hv2 Hm2) as H2.
  rewrite H1 in H2. discriminate H2.
Qed.

(** C4, amended: whenever some inconsistent marker has a name other than the
    empty string, [paternity_index] returns the string
    "There are N inconsistent markers." with N the number of inconsistent
    markers; that string stands where the number would, and carries the count
    alone. *)
Theorem paternity_index_diagnostic self σ m :
  m ∈ Duo.flagged_markers self →
  m ≠ "" →
  Duo.paternity_index self σ =
    (inr (PyStr ("There are "
                 +:+ pretty (length (Duo.flagged_markers self))
                 +:+ " inconsistent markers.")), σ).
Proof.
  intros Hin Hm. apply paternity_index_flagged.
  unfold py_any. apply existsb_exists. exists m.
  split; [by apply list_elem_of_In|]. by apply bool_decide_eq_true.
Qed.

Lemma paternity_index_diagnostic_witness :
  let self := Duo.Build
                (Profile.Build 1 ["CSF1PO"; "TH01"] [[13; 15]; [8; 9]])
                (Profile.Build 0 ["CSF1PO"; "TH01"] [[13; 14]; [6; 7]])
                ["CSF1PO"; "TH01"] 0 in
  "TH01" ∈ Duo.flagged_markers self ∧
  "TH01" ≠ "" ∧
  Duo.paternity_index self (Store ∅ ∅) =
    (inr (PyStr "There are 1 inconsistent markers."), Store ∅ ∅).
Proof.
  intros self.
  assert ("TH01" ∈ Duo.flagged_markers self) as Hin by (vm_compute; left).
  split; [exact Hin|]. split; [done|].
  exact (paternity_index_diagnostic self (Store ∅ ∅) "TH01" Hin ltac:(done)).
Defined.

(** ** Two homozygous pairs *)

(** C5: for two homozygous pairs the code does not use 1 / f(p1).  It looks
    up the key 0 and then the frequency found there as a key:
    with the table [{13: 0.2}] the step raises [KeyError], and with
    [{13: 0.2, 0: 14.0, 14: 0.5}] it gives 1 / f(14) = 2 where 1 / f(13) = 5.
    Through the constructor the branch is reached with the marker named by
    the empty string. *)
Lemma homozygous_pairs_double_lookup :
  let pop1 : gmap Z float := {[13 := 0.2%float]} in
  let pop2 : gmap Z float := {[13 := 0.2%float; 0 := 14%float;
                               14 := 0.5%float]} in
  let σ1 := caller (PyDict {["" := pair 13 13]})
                   (PyDict {["" := pair 13 13]}) {["" := pop1]} in
  let σ2 := caller (PyDict {["" := pair 13 13]})
                   (PyDict {["" := pair 13 13]}) {["" := pop2]} in
  (Duo.marker_step pop1 (PyInt 1) [13; 13] [13; 13] (Store ∅ ∅)).1
    = inl KeyError ∧
  (Duo.marker_step pop2 (PyInt 1) [13; 13] [13; 13] (Store ∅ ∅)).1
    = inr (PyFloat (1 / 0.5)) ∧
  (duo_paternity_index σ1).1 = inl KeyError ∧
  (duo_paternity_index σ2).1 = inr (PyFloat (1 / 0.5)) ∧
  (1 / 0.5 = 2)%float ∧ (1 / 0.2 = 5)%float.
Proof. repeat split; vm_compute; reflexivity. Qed.

(** * Further properties of the constructor *)

(** A case made of two dictionaries, spelled out. *)
Lemma constructed_shape σ parent child population dp dc self σ' :
  objects σ !! parent = Some (PyDict dp) →
  objects σ !! child = Some (PyDict dc) →
  Duo.__init__ parent child population σ = (inr self, σ') →
  dom dp = dom dc ∧ well_formed dp = true ∧ well_formed dc = true ∧
  self = Duo.Build (loaded child (delete "AMEL" dc))
                   (loaded parent (delete "AMEL" dp))
                   (py_sorted (map_to_list (delete "AMEL" dp)).*1)
                   population ∧
  σ' = without_AMEL parent dp (without_AMEL child dc σ) ∧
  py_sorted (map_to_list (delete "AMEL" dc)).*1
  = py_sorted (map_to_list (delete "AMEL" dp)).*1.
Proof.
  intros Hp Hc. rewrite (init_dicts σ parent child population dp dc) by done.
  case_bool_decide as Hdom; [|discriminate].
  destruct (well_formed dc), (well_formed dp); try discriminate.
  intros [= <- <-]. repeat split; try done.
  apply py_sorted_keys_eq. by rewrite !dom_delete_L, Hdom.
Qed.

(** The names kept as markers, and the lists of the two profiles. *)
Lemma constructed_markers_elem σ parent child population dp dc self σ' :
  objects σ !! parent = Some (PyDict dp) →
  objects σ !! child = Some (PyDict dc) →
  Duo.__init__ parent child population σ = (inr self, σ') →
  (∀ m, m ∈ Duo.markers self ↔
        m ≠ "AMEL" ∧ is_Some (dp !! m) ∧ is_Some (dc !! m)) ∧
  Profile.markers (Duo.parent self) = Duo.markers self ∧
  Profile.markers (Duo.child self) = Duo.markers self.
Proof.
  intros Hp Hc Hinit.
  destruct (constructed_shape _ _ _ _ _ _ _ _ Hp Hc Hinit)
    as (Hdom & _ & _ & -> & _ & Hsame).
  cbn [Duo.markers Duo.parent Duo.child loaded Profile.markers].
  split; [|by split].
  intros m. rewrite elem_of_py_sorted, elem_of_keys. split.
  - intros Hm. destruct (decide (m = "AMEL")) as [->|Hne].
    + rewrite lookup_delete_eq in Hm. by destruct Hm.
    + rewrite lookup_delete_ne in Hm by done.
      repeat split; try done. apply elem_of_dom. rewrite <-Hdom.
      by apply elem_of_dom.
  - intros (Hne & Hm & _). by rewrite lookup_delete_ne.
Qed.

(** X1: the markers of a constructed case are the names the two dictionaries
    share, without ["AMEL"], in lexicographic order and without repetition;
    the two profiles of the case have the same list. *)
Theorem constructed_markers σ parent child population dp dc self σ' :
  objects σ !! parent = Some (PyDict dp) →
  objects σ !! child = Some (PyDict dc) →
  Duo.__init__ parent child population σ = (inr self, σ') →
  Sorted String.le (Duo.markers self) ∧
  NoDup (Duo.markers self) ∧
  (∀ m, m ∈ Duo.markers self ↔
        m ≠ "AMEL" ∧ is_Some (dp !! m) ∧ is_Some (dc !! m)) ∧
  Profile.markers (Duo.parent self) = Duo.markers self ∧
  Profile.markers (Duo.child self) = Duo.markers self.
Proof.
  intros Hp Hc Hinit.
  pose proof (constructed_markers_elem _ _ _ _ _ _ _ _ Hp Hc Hinit) as Helem.
  destruct (constructed_shape _ _ _ _ _ _ _ _ Hp Hc Hinit)
    as (_ & _ & _ & -> & _ & _).
  cbn [Duo.markers] in *.
  split; [apply Sorted_merge_sort, _|].
  split; [|exact Helem].
  unfold py_sorted. rewrite merge_sort_Permutation.
  apply NoDup_fst_map_to_list.
Qed.

Lemma constructed_markers_witness :
  let dp : gmap string collection :=
    {["AMEL" := pair 1 2; "TH01" := pair 6 7; "CSF1PO" := pair 13 14]} in
  let dc : gmap string collection :=
    {["TH01" := pair 6 9; "AMEL" := pair 1 1; "CSF1PO" := pair 13 16]} in
  let σ := caller (PyDict dp) (PyDict dc) ∅ in
  ∃ self σ',
    Duo.__init__ 0 1 0 σ = (inr self, σ') ∧
    Duo.markers self = ["CSF1PO"; "TH01"] ∧
    Sorted String.le (Duo.markers self) ∧
    NoDup (Duo.markers self) ∧
    (∀ m, m ∈ Duo.markers self ↔
          m ≠ "AMEL" ∧ is_Some (dp !! m) ∧ is_Some (dc !! m)) ∧
    Profile.markers (Duo.parent self) = Duo.markers self ∧
    Profile.markers (Duo.child self) = Duo.markers self.
Proof.
  intros dp dc σ.
  assert (∃ self σ', Duo.__init__ 0 1 0 σ = (inr self, σ')
                     ∧ Duo.markers self = ["CSF1PO"; "TH01"])
    as (self & σ' & Hrun & Hm).
  { eexists _, _. split; vm_compute; reflexivity. }
  exists self, σ'. split; [exact Hrun|]. split; [exact Hm|].
  apply (constructed_markers σ 0%nat 1%nat 0%nat dp dc self σ');
    [reflexivity|reflexivity|exact Hrun].
Defined.

(** X2: in a constructed case the arrays of alleles are aligned with the
    markers: each has one row per marker, and the row at the place of a
    marker is the pair the parent's (the child's) dictionary holds for that
    marker, converted to the element type [np.array] gives the array of that
    profile.  When all the alleles of a profile, those of ["AMEL"] aside,
    fit 64 signed bits, its rows are the pairs of the dictionary
    themselves. *)
Theorem constructed_alleles σ parent child population dp dc self σ' :
  objects σ !! parent = Some (PyDict dp) →
  objects σ !! child = Some (PyDict dc) →
  Duo.__init__ parent child population σ = (inr self, σ') →
  length (Profile.alleles (Duo.parent self)) = length (Duo.markers self) ∧
  length (Profile.alleles (Duo.child self)) = length (Duo.markers self) ∧
  ∀ i m, Duo.markers self !! i = Some m →
    ∃ p0 p1 c0 c1,
      dp !! m = Some (Sized [p0; p1]) ∧ dc !! m = Some (Sized [c0; c1]) ∧
      Profile.alleles (Duo.parent self) !! i
      = Some (np_astype (array_dtype (delete "AMEL" dp)) [p0; p1]) ∧
      Profile.alleles (Duo.child self) !! i
      = Some (np_astype (array_dtype (delete "AMEL" dc)) [c0; c1]) ∧
      (int64_alleles dp = true →
       Profile.alleles (Duo.parent self) !! i = Some [p0; p1]) ∧
      (int64_alleles dc = true →
       Profile.alleles (Duo.child self) !! i = Some [c0; c1]).
Proof.
  intros Hp Hc Hinit.
  pose proof (constructed_markers_elem _ _ _ _ _ _ _ _ Hp Hc Hinit)
    as (Hin & _).
  destruct (constructed_shape _ _ _ _ _ _ _ _ Hp Hc Hinit)
    as (Hdom & Hwfp & Hwfc & -> & _ & Hsame).
  cbn [Duo.markers Duo.parent Duo.child] in *. rewrite !loaded_alleles.
  rewrite Hsame, !length_fmap. repeat split; try done.
  intros i m Hi.
  destruct (proj1 (Hin m)) as (Hne & [vp Hvp] & [vc Hvc]).
  { by eapply list_elem_of_lookup_2. }
  apply well_formed_spec in Hwfp, Hwfc.
  pose proof (Hwfp m vp Hvp) as H2p. pose proof (Hwfc m vc Hvc) as H2c.
  destruct vp as [[|p0 [|p1 [|? ?]]]|]; try discriminate H2p.
  destruct vc as [[|c0 [|c1 [|? ?]]]|]; try discriminate H2c.
  exists p0, p1, c0, c1. rewrite !list_lookup_fmap, Hi.
  cbn [fmap option_fmap option_map].
  assert (row (delete "AMEL" dp) m = [p0; p1]) as Hrp.
  { unfold row. by rewrite lookup_delete_ne, Hvp. }
  assert (row (delete "AMEL" dc) m = [c0; c1]) as Hrc.
  { unfold row. by rewrite lookup_delete_ne, Hvc. }
  split; [done|]. split; [done|]. unfold stored at 1 2. rewrite Hrp, Hrc.
  split; [done|]. split; [done|].
  split; intros Hint; rewrite stored_int64 by done; congruence.
Qed.

Lemma constructed_alleles_witness :
  let dp : gmap string collection :=
    {["AMEL" := pair 1 2; "TH01" := pair 6 7;
      "CSF1PO" := pair (2 ^ 63 + 1) 14]} in
  let dc : gmap string collection :=
    {["TH01" := pair 6 9; "AMEL" := pair 1 1; "CSF1PO" := pair 13 16]} in
  let σ := caller (PyDict dp) (PyDict dc) ∅ in
  ∃ self σ',
    Duo.__init__ 0 1 0 σ = (inr self, σ') ∧
    Profile.alleles (Duo.parent self) = [[2 ^ 63; 14]; [6; 7]] ∧
    Profile.alleles (Duo.child self) = [[13; 16]; [6; 9]] ∧
    int64_alleles dp = false ∧ int64_alleles dc = true ∧
    length (Profile.alleles (Duo.parent self)) = length (Duo.markers self) ∧
    length (Profile.alleles (Duo.child self)) = length (Duo.markers self) ∧
    ∀ i m, Duo.markers self !! i = Some m →
      ∃ p0 p1 c0 c1,
        dp !! m = Some (Sized [p0; p1]) ∧ dc !! m = Some (Sized [c0; c1]) ∧
        Profile.alleles (Duo.parent self) !! i
        = Some (np_astype (array_dtype (delete "AMEL" dp)) [p0; p1]) ∧
        Profile.alleles (Duo.child self) !! i
        = Some (np_astype (array_dtype (delete "AMEL" dc)) [c0; c1]) ∧
        (int64_alleles dp = true →
         Profile.alleles (Duo.parent self) !! i = Some [p0; p1]) ∧
        (int64_alleles dc = true →
         Profile.alleles (Duo.child self) !! i = Some [c0; c1]).
Proof.
  intros dp dc σ.
  assert (∃ self σ', Duo.__init__ 0 1 0 σ = (inr self, σ')
            ∧ Profile.alleles (Duo.parent self) = [[2 ^ 63; 14]; [6; 7]]
            ∧ Profile.alleles (Duo.child self) = [[13; 16]; [6; 9]])
    as (self & σ' & Hrun & Ha & Hb).
  { eexists _, _. repeat split; vm_compute; reflexivity. }
  exists self, σ'. split; [exact Hrun|]. split; [exact Ha|].
  split; [exact Hb|]. split; [vm_compute; reflexivity|].
  split; [vm_compute; reflexivity|].
  apply (constructed_alleles σ 0%nat 1%nat 0%nat dp dc self σ');
    [reflexivity|reflexivity|exact Hrun].
Defined.

(** X3: given two dictionaries, the constructor returns a case exactly when
    they have the same marker names and every entry, the one of ["AMEL"]
    included, is a collection of two alleles; otherwise it raises
    [ValueError]. *)
Theorem construction_of_dictionaries σ parent child population dp dc :
  objects σ !! parent = Some (PyDict dp) →
  objects σ !! child = Some (PyDict dc) →
  ((∃ self, (Duo.__init__ parent child population σ).1 = inr self) ↔
   dom dp = dom dc ∧
   (∀ m v, dp !! m = Some v → ∃ a b, v = Sized [a; b]) ∧
   (∀ m v, dc !! m = Some v → ∃ a b, v = Sized [a; b])) ∧
  ((Duo.__init__ parent child population σ).1 = inl ValueError ↔
   ¬ ∃ self, (Duo.__init__ parent child population σ).1 = inr self).
Proof.
  intros Hp Hc.
  assert (∀ d : gmap string collection,
            well_formed d = true ↔
            ∀ m v, d !! m = Some v → ∃ a b, v = Sized [a; b]) as Hwf.
  { intros d. rewrite well_formed_spec. unfold map_Forall.
    split; intros H m v Hv; specialize (H m v Hv).
    - destruct v as [[|a [|b [|? ?]]]|]; try discriminate H. eauto.
    - by destruct H as (a & b & ->). }
  rewrite <-!Hwf.
  rewrite (init_dicts σ parent child population dp dc) by done.
  case_bool_decide as Hdom; destruct (well_formed dc), (well_formed dp);
    simpl; (split; split; intros Hyp);
    try discriminate; try (by eexists); try done;
    try (destruct Hyp as (Hd & Hwp & Hwc); congruence);
    try (intros [self Hself]; discriminate Hself);
    try (destruct Hyp as [self Hself]; discriminate Hself);
    destruct Hyp; by eexists.
Qed.

Lemma construction_of_dictionaries_witness :
  let dp : gmap string collection := {["CSF1PO" := pair 13 14]} in
  let dc : gmap string collection := {["CSF1PO" := Sized [13]]} in
  let σ := caller (PyDict dp) (PyDict dc) ∅ in
  (Duo.__init__ 0 1 0 σ).1 = inl ValueError ∧
  ¬ (dom dp = dom dc ∧
     (∀ m v, dp !! m = Some v → ∃ a b, v = Sized [a; b]) ∧
     (∀ m v, dc !! m = Some v → ∃ a b, v = Sized [a; b])).
Proof.
  intros dp dc σ.
  destruct (construction_of_dictionaries σ 0%nat 1%nat 0%nat dp dc)
    as [Hok Hfail]; [reflexivity|reflexivity|].
  split; [vm_compute; reflexivity|].
  intros Hyp. apply Hok in Hyp as [self Hself].
  vm_compute in Hself. discriminate Hself.
Defined.

(** X4: a construction that fails can have changed its input.  When the
    marker names agree and the child's dictionary is well formed but the
    parent's is not, the constructor raises [ValueError] after ["AMEL"] has
    been deleted from the child's dictionary; the parent's is as it was. *)
Theorem failed_construction_mutates_child σ parent child population dp dc :
  objects σ !! parent = Some (PyDict dp) →
  objects σ !! child = Some (PyDict dc) →
  dom dp = dom dc →
  well_formed dc = true →
  well_formed dp = false →
  ∃ σ', Duo.__init__ parent child population σ = (inl ValueError, σ') ∧
        objects σ' !! child = Some (PyDict (delete "AMEL" dc)) ∧
        objects σ' !! parent = Some (PyDict dp) ∧
        (∀ l, l ≠ child → objects σ' !! l = objects σ !! l) ∧
        tables σ' = tables σ.
Proof.
  intros Hp Hc Hdom Hwfc Hwfp.
  rewrite (init_dicts σ parent child population dp dc) by done.
  rewrite Hwfc, Hwfp, bool_decide_true by done. simpl.
  assert (parent ≠ child) as Hne by (intros ->; congruence).
  eexists. split; [done|]. unfold without_AMEL; simpl.
  rewrite lookup_insert_eq, lookup_insert_ne by done.
  repeat split; try done. intros l Hl. by rewrite lookup_insert_ne.
Qed.

Lemma failed_construction_mutates_child_witness :
  let dp : gmap string collection :=
    {["AMEL" := pair 1 2; "CSF1PO" := Sized [13; 14; 15]]} in
  let dc : gmap string collection :=
    {["AMEL" := pair 1 1; "CSF1PO" := pair 13 16]} in
  let σ := caller (PyDict dp) (PyDict dc) ∅ in
  dom dp = dom dc ∧ well_formed dc = true ∧ well_formed dp = false ∧
  ∃ σ', Duo.__init__ 0 1 0 σ = (inl ValueError, σ') ∧
        objects σ' !! 1%nat = Some (PyDict (delete "AMEL" dc)) ∧
        objects σ' !! 0%nat = Some (PyDict dp) ∧
        (∀ l, l ≠ 1%nat → objects σ' !! l = objects σ !! l) ∧
        tables σ' = tables σ.
Proof.
  intros dp dc σ.
  assert (dom dp = dom dc) as Hdom by (vm_compute; reflexivity).
  split; [exact Hdom|]. split; [reflexivity|]. split; [reflexivity|].
  apply (failed_construction_mutates_child σ 0%nat 1%nat 0%nat dp dc);
    [reflexivity|reflexivity|exact Hdom|reflexivity|reflexivity].
Defined.

(** X5: dictionaries with different marker names, or with a malformed entry
    in the child's, are refused before anything is deleted: the constructor
    raises [ValueError] and the store is as it was, ["AMEL"] included. *)
Theorem refused_before_mutation σ parent child population dp dc :
  objects σ !! parent = Some (PyDict dp) →
  objects σ !! child = Some (PyDict dc) →
  dom dp ≠ dom dc ∨ well_formed dc = false →
  Duo.__init__ parent child population σ = (inl ValueError, σ).
Proof.
  intros Hp Hc Hbad.
  rewrite (init_dicts σ parent child population dp dc) by done.
  destruct Hbad as [Hdom| ->].
  - by rewrite bool_decide_false.
  - by rewrite !andb_false_r.
Qed.

Lemma refused_before_mutation_witness :
  let dp : gmap string collection :=
    {["AMEL" := pair 1 2; "CSF1PO" := pair 13 14]} in
  let dc : gmap string collection := {["CSF1PO" := pair 13 16]} in
  let σ := caller (PyDict dp) (PyDict dc) ∅ in
  dom dp ≠ dom dc ∧
  Duo.__init__ 0 1 0 σ = (inl ValueError, σ).
Proof.
  intros dp dc σ.
  assert (dom dp ≠ dom dc) as Hdom.
  { intros Heq. assert ("AMEL" ∈ dom dc) as Hin.
    { rewrite <-Heq. apply elem_of_dom. by eexists. }
    apply elem_of_dom in Hin as [v Hv]. vm_compute in Hv. discriminate Hv. }
  split; [exact Hdom|].
  apply (refused_before_mutation σ 0%nat 1%nat 0%nat dp dc);
    [reflexivity|reflexivity|by left].
Defined.

(** X6: when the parent or the child is an object without [keys()], the
    constructor raises [AttributeError], not the [ValueError] of its checks,
    and changes nothing. *)
Theorem init_without_keys σ parent child population op oc :
  objects σ !! parent = Some op →
  objects σ !! child = Some oc →
  op = PyOther ∨ oc = PyOther →
  Duo.__init__ parent child population σ = (inl AttributeError, σ).
Proof.
  intros Hp Hc Hbad. unfold Duo.__init__. rewrite bind_run. unfold try_except.
  rewrite bind_run. unfold py_keys at 1. rewrite Hp.
  destruct op as [dp|ks|]; [| |done].
  - destruct Hbad as [Hbad| ->]; [done|].
    rewrite bind_run. unfold py_keys at 1. by rewrite Hc.
  - destruct Hbad as [Hbad| ->]; [done|].
    rewrite bind_run. unfold py_keys at 1. by rewrite Hc.
Qed.

Lemma init_without_keys_witness :
  let σ := caller (PyDict {["CSF1PO" := pair 13 14]}) PyOther ∅ in
  objects σ !! 0%nat = Some (PyDict {["CSF1PO" := pair 13 14]}) ∧
  objects σ !! 1%nat = Some PyOther ∧
  Duo.__init__ 0 1 0 σ = (inl AttributeError, σ).
Proof.
  intros σ. split; [reflexivity|]. split; [reflexivity|].
  apply (init_without_keys σ 0%nat 1%nat 0%nat
           (PyDict {["CSF1PO" := pair 13 14]}) PyOther);
    [reflexivity|reflexivity|by right].
Defined.

(** X7: when both arguments have [keys()] and one of them is not a
    dictionary, the constructor raises [ValueError], whatever the keys. *)
Theorem init_not_a_dictionary σ parent child population op oc :
  objects σ !! parent = Some op →
  objects σ !! child = Some oc →
  op ≠ PyOther → oc ≠ PyOther →
  (∀ d, op ≠ PyDict d) ∨ (∀ d, oc ≠ PyDict d) →
  (Duo.__init__ parent child population σ).1 = inl ValueError.
Proof.
  intros Hp Hc Hop Hoc Hbad.
  destruct op as [dp|ks|]; [| |done].
  - destruct Hbad as [Hbad|Hbad]; [by destruct (Hbad dp)|].
    destruct oc as [dc|ks|]; [by destruct (Hbad dc)| |done].
    unfold Duo.__init__. rewrite bind_run. unfold try_except.
    rewrite bind_run. unfold py_keys at 1. rewrite Hp. rewrite bind_run.
    unfold py_keys at 1. rewrite Hc.
    case_bool_decide; [done|]. rewrite ret_run, bind_run.
    rewrite load_profile_not_dict; [done|]. congruence.
  - by apply (init_keyed_not_dict σ parent child population ks oc).
Qed.

Lemma init_not_a_dictionary_witness :
  let σ := caller (PyDict {["CSF1PO" := pair 13 14]})
                  (PyKeyed ["CSF1PO"]) ∅ in
  (Duo.__init__ 0 1 0 σ).1 = inl ValueError.
Proof.
  intros σ.
  apply (init_not_a_dictionary σ 0%nat 1%nat 0%nat
           (PyDict {["CSF1PO" := pair 13 14]}) (PyKeyed ["CSF1PO"]));
    [reflexivity|reflexivity|done|done|right; done].
Defined.

(** X8: constructing again from the dictionaries a construction has left
    gives the same case and changes nothing more: ["AMEL"] is already gone. *)
Theorem init_again σ parent child population dp dc self σ' :
  objects σ !! parent = Some (PyDict dp) →
  objects σ !! child = Some (PyDict dc) →
  Duo.__init__ parent child population σ = (inr self, σ') →
  Duo.__init__ parent child population σ' = (inr self, σ').
Proof.
  intros Hp Hc Hinit.
  destruct (constructed_shape _ _ _ _ _ _ _ _ Hp Hc Hinit)
    as (Hdom & Hwfp & Hwfc & -> & -> & Hsame).
  set (σ1 := without_AMEL child dc σ). set (σ2 := without_AMEL parent dp σ1).
  assert (objects σ2 !! parent = Some (PyDict (delete "AMEL" dp))) as Hp2.
  { unfold σ2, without_AMEL; simpl. by rewrite lookup_insert_eq. }
  assert (objects σ2 !! child = Some (PyDict (delete "AMEL" dc))) as Hc2.
  { unfold σ2, σ1, without_AMEL; simpl.
    destruct (decide (parent = child)) as [->|Hne].
    - rewrite lookup_insert_eq. congruence.
    - by rewrite lookup_insert_ne, lookup_insert_eq. }
  rewrite (init_dicts σ2 parent child population _ _ Hp2 Hc2).
  rewrite !well_formed_delete, bool_decide_true by
    (done || by rewrite !dom_delete_L, Hdom).
  simpl. rewrite !delete_delete_eq.
  rewrite (without_AMEL_absent child (delete "AMEL" dc) σ2)
    by (done || apply lookup_delete_eq).
  rewrite (without_AMEL_absent parent (delete "AMEL" dp) σ2)
    by (done || apply lookup_delete_eq).
  done.
Qed.

Lemma init_again_witness :
  let dp : gmap string collection :=
    {["AMEL" := pair 1 2; "CSF1PO" := pair 13 14]} in
  let dc : gmap string collection :=
    {["AMEL" := pair 1 1; "CSF1PO" := pair 13 16]} in
  let σ := caller (PyDict dp) (PyDict dc) ∅ in
  ∃ self σ',
    Duo.__init__ 0 1 0 σ = (inr self, σ') ∧
    Duo.__init__ 0 1 0 σ' = (inr self, σ').
Proof.
  intros dp dc σ.
  assert (∃ self σ', Duo.__init__ 0 1 0 σ = (inr self, σ'))
    as (self & σ' & Hrun).
  { eexists _, _. vm_compute. reflexivity. }
  exists self, σ'. split; [exact Hrun|].
  apply (init_again σ 0%nat 1%nat 0%nat dp dc self σ');
    [reflexivity|reflexivity|exact Hrun].
Defined.

(** * Further properties of the two analyses *)

Lemma check_self (P l : list Z) :
  (∀ a, a ∈ l → a ∈ P) → Duo._check P l = [].
Proof.
  unfold Duo._check. induction l as [|a l IH]; intros Hl; [done|].
  rewrite filter_cons. destruct (decide (a ∉ P)) as [Hn|_].
  - destruct Hn. apply Hl. by left.
  - apply IH. intros b Hb. apply Hl. by right.
Qed.

Lemma filter_all {A} (P : A → Prop) `{∀ x, Decision (P x)} (l : list A) :
  (∀ x, x ∈ l → P x) → filter P l = l.
Proof.
  induction l as [|x l IH]; intros Hl; [done|].
  rewrite filter_cons, decide_True by (apply Hl; by left).
  f_equal. apply IH. intros y Hy. apply Hl. by right.
Qed.

(** X9: a profile compared with itself is reported inconsistent on every
    marker.  When parent and child hold the same pairs, the loop flags all
    the markers, and with a marker of a name other than the empty string
    [paternity_index] is the diagnostic counting all of them. *)
Theorem identical_profiles_all_flagged σ parent child population d self σ' :
  objects σ !! parent = Some (PyDict d) →
  objects σ !! child = Some (PyDict d) →
  Duo.__init__ parent child population σ = (inr self, σ') →
  Duo.flagged_markers self = Duo.markers self ∧
  ∀ m, m ∈ Duo.markers self → m ≠ "" →
    Duo.paternity_index self σ' =
      (inr (PyStr ("There are " +:+ pretty (length (Duo.markers self))
                   +:+ " inconsistent markers.")), σ').
Proof.
  intros Hp Hc Hinit.
  destruct (constructed_shape _ _ _ _ _ _ _ _ Hp Hc Hinit)
    as (_ & _ & _ & Hself & _ & _).
  assert (Duo.flagged_markers self = Duo.markers self) as Hall.
  { rewrite Hself. unfold Duo.flagged_markers.
    cbn [Duo.parent Duo.child Duo.markers]. rewrite !loaded_alleles.
    cbn [loaded Profile.markers].
    rewrite flag_loop, app_nil_l. apply filter_all.
    intros m _. by rewrite check_self. }
  split; [exact Hall|].
  intros m Hm Hne. rewrite <-Hall. apply paternity_index_flagged.
  rewrite Hall. unfold py_any. apply existsb_exists. exists m.
  split; [by apply list_elem_of_In|]. by apply bool_decide_eq_true.
Qed.

Lemma identical_profiles_all_flagged_witness :
  let d : gmap string collection :=
    {["TH01" := pair 6 7; "CSF1PO" := pair 13 14]} in
  let σ := caller (PyDict d) (PyDict d) ∅ in
  ∃ self σ',
    Duo.__init__ 0 1 0 σ = (inr self, σ') ∧
    Duo.flagged_markers self = ["CSF1PO"; "TH01"] ∧
    Duo.paternity_index self σ' =
      (inr (PyStr "There are 2 inconsistent markers."), σ').
Proof.
  intros d σ.
  assert (∃ self σ', Duo.__init__ 0 1 0 σ = (inr self, σ')
                     ∧ Duo.markers self = ["CSF1PO"; "TH01"])
    as (self & σ' & Hrun & Hm).
  { eexists _, _. split; vm_compute; reflexivity. }
  destruct (identical_profiles_all_flagged σ 0%nat 1%nat 0%nat d self σ')
    as [Hall Hdiag]; [reflexivity|reflexivity|exact Hrun|].
  exists self, σ'. split; [exact Hrun|].
  split; [rewrite Hall; exact Hm|].
  rewrite (Hdiag "TH01"); [|rewrite Hm; right; left|discriminate].
  rewrite Hm. reflexivity.
Defined.

(** X10: profiles without a marker, or with ["AMEL"] alone, give a case
    without markers, and its [paternity_index] is the integer 1 the product
    starts from, whatever the population table is. *)
Theorem no_markers_index_one σ parent child population dp dc self σ' :
  objects σ !! parent = Some (PyDict dp) →
  objects σ !! child = Some (PyDict dc) →
  Duo.__init__ parent child population σ = (inr self, σ') →
  (∀ m, is_Some (dp !! m) → m = "AMEL") →
  Duo.markers self = [] ∧
  ∀ σ'', Duo.inconsistent_markers self σ'' = (inr (PyInt 0), σ'') ∧
         Duo.paternity_index self σ'' = (inr (PyInt 1), σ'').
Proof.
  intros Hp Hc Hinit Hempty.
  pose proof (constructed_markers_elem _ _ _ _ _ _ _ _ Hp Hc Hinit)
    as (Hin & Hpm & _).
  assert (Duo.markers self = []) as Hnil.
  { destruct (Duo.markers self) as [|m ms]; [done|].
    destruct (proj1 (Hin m)) as (Hne & Hm & _); [by left|].
    by destruct Hne, (Hempty m). }
  split; [exact Hnil|]. intros σ''.
  assert (Duo.flagged_markers self = []) as Hflag.
  { unfold Duo.flagged_markers. by rewrite Hpm, Hnil. }
  assert (Duo.inconsistent_markers self σ'' = (inr (PyInt 0), σ'')) as Him.
  { unfold Duo.inconsistent_markers. by rewrite Hflag. }
  split; [exact Him|].
  unfold Duo.paternity_index. rewrite bind_run, Him. cbn [py_bool].
  rewrite bool_decide_false by (intros Hne; by apply Hne).
  by rewrite Hnil.
Qed.

Lemma no_markers_index_one_witness :
  let dp : gmap string collection := {["AMEL" := pair 1 2]} in
  let dc : gmap string collection := {["AMEL" := pair 1 1]} in
  let σ := caller (PyDict dp) (PyDict dc) ∅ in
  (∀ m, is_Some (dp !! m) → m = "AMEL") ∧
  ∃ self σ',
    Duo.__init__ 0 1 0 σ = (inr self, σ') ∧
    Duo.markers self = [] ∧
    Duo.paternity_index self σ' = (inr (PyInt 1), σ').
Proof.
  intros dp dc σ.
  assert (∀ m, is_Some (dp !! m) → m = "AMEL") as Hempty.
  { intros m Hm. destruct (decide (m = "AMEL")) as [|Hne]; [done|].
    unfold dp in Hm. rewrite lookup_singleton_ne in Hm by done.
    by destruct Hm. }
  split; [exact Hempty|].
  assert (∃ self σ', Duo.__init__ 0 1 0 σ = (inr self, σ'))
    as (self & σ' & Hrun).
  { eexists _, _. vm_compute. reflexivity. }
  destruct (no_markers_index_one σ 0%nat 1%nat 0%nat dp dc self σ')
    as [Hnil Hone]; [reflexivity|reflexivity|exact Hrun|exact Hempty|].
  exists self, σ'. split; [exact Hrun|]. split; [exact Hnil|].
  apply Hone.
Defined.

(** The loop of [inconsistent_markers] picks its markers from the parent's
    profile, in order. *)
Lemma flagged_markers_sublist self :
  sublist (Duo.flagged_markers self) (Profile.markers (Duo.parent self)).
Proof.
  unfold Duo.flagged_markers.
  generalize (zip (Profile.alleles (Duo.parent self))
                  (Profile.alleles (Duo.child self))).
  generalize (Profile.markers (Duo.parent self)).
  intros ms rows.
  assert (∀ acc, ∃ l,
            foldl (λ inconsistent_markers '(marker, (p_alleles, c_alleles)),
                     if bool_decide
                          (length (Duo._check p_alleles c_alleles) ≠ 1%nat)
                     then inconsistent_markers ++ [marker]
                     else inconsistent_markers) acc (zip ms rows)
            = acc ++ l ∧ sublist l ms) as H.
  { revert rows. induction ms as [|m ms IH]; intros rows acc.
    - exists []. by rewrite app_nil_r.
    - destruct rows as [|[p c] rows].
      + exists []. rewrite app_nil_r. split; [done|]. apply sublist_nil_l.
      + cbn [zip zip_with foldl]. case_bool_decide.
        * destruct (IH rows (acc ++ [m])) as (l & -> & Hl).
          exists (m :: l). rewrite <-app_assoc. split; [done|].
          by apply sublist_skip.
        * destruct (IH rows acc) as (l & -> & Hl).
          exists l. split; [done|]. by apply sublist_cons. }
  destruct (H []) as (l & -> & Hl). done.
Qed.

(** X11: whatever the case object holds, [inconsistent_markers] returns
    without raising and leaves the store alone; its result is the integer 0
    or a non-empty list of markers of the parent's profile, in the order of
    that profile and each at most as often as it occurs there. *)
Theorem inconsistent_markers_result self σ :
  ∃ v, Duo.inconsistent_markers self σ = (inr v, σ) ∧
       (v = PyInt 0 ∨
        ∃ l, v = PyList l ∧ l ≠ [] ∧
             sublist l (Profile.markers (Duo.parent self))).
Proof.
  unfold Duo.inconsistent_markers. rewrite ret_run.
  eexists. split; [reflexivity|].
  destruct (py_any (Duo.flagged_markers self)) eqn:Hany; [right|by left].
  exists (Duo.flagged_markers self). split; [done|].
  split; [|apply flagged_markers_sublist].
  intros Hnil. by rewrite Hnil in Hany.
Qed.

(** * Further properties of the loop of [paternity_index] *)

Lemma np_unique_pair a b :
  np_unique [a; b] = if decide (a = b) then [a]
                     else if decide (a ≤ b) then [a; b] else [b; a].
Proof.
  unfold np_unique. cbn [remove_dups].
  destruct (decide_rel elem_of a [b]) as [Hin|Hn].
  - apply list_elem_of_singleton in Hin as ->. by rewrite decide_True.
  - rewrite decide_False by (intros ->; apply Hn; by left).
    unfold merge_sort. simpl. by destruct (decide (a ≤ b)).
Qed.

(** A pair is heterozygous exactly when its two alleles differ. *)
Lemma is_heterozygous_pair a b :
  Duo.is_heterozygous [a; b] = bool_decide (a ≠ b).
Proof.
  unfold Duo.is_heterozygous. rewrite np_unique_pair.
  destruct (decide (a = b)) as [->|Hne].
  - rewrite (bool_decide_false (b ≠ b)) by (intros H; by apply H).
    by apply bool_decide_false.
  - rewrite (bool_decide_true (a ≠ b)) by done. by destruct (decide (a ≤ b)).
Qed.

Lemma marker_step_shared_one pop calc p c s σ :
  Duo.is_heterozygous p = true →
  Duo.is_heterozygous c = true →
  np_intersect1d p c = [s] →
  Duo.marker_step pop calc p c σ
  = (f ← freq_getitem pop s; r ← py_truediv 0.25 f; py_imul calc r) σ.
Proof.
  intros Hp Hc Hs. unfold Duo.marker_step.
  rewrite Hp, Hc, Hs. cbn [andb negb length py_index lookup list_lookup].
  rewrite bool_decide_false by done.
  unfold freq_getitem, py_truediv, py_imul.
  cbv [mbind M_bind mret M_ret raise].
  destruct (pop !! s) as [f|]; [|reflexivity].
  destruct (PrimFloat.eqb f 0); [reflexivity|]. by destruct calc.
Qed.

Lemma marker_step_homozygous_parent pop calc p c p0 σ :
  Duo.is_heterozygous p = false →
  Duo.is_heterozygous c = true →
  p !! 0%nat = Some p0 →
  Duo.marker_step pop calc p c σ
  = (f ← freq_getitem pop p0; r ← py_truediv 0.5 f; py_imul calc r) σ.
Proof.
  intros Hp Hc H0. unfold Duo.marker_step.
  rewrite Hp, Hc. cbn [andb negb]. unfold py_index. rewrite H0.
  unfold freq_getitem, py_truediv, py_imul.
  cbv [mbind M_bind mret M_ret raise].
  destruct (pop !! p0) as [f|]; [|reflexivity].
  destruct (PrimFloat.eqb f 0); [reflexivity|]. by destruct calc.
Qed.

(** The step on pairs with exactly one allele [s] of the child in the
    parent's pair. *)
Lemma marker_step_one_in_common pop calc p0 p1 c0 c1 s σ :
  filter (λ a, a ∈ [p0; p1]) [c0; c1] = [s] →
  Duo.marker_step pop calc [p0; p1] [c0; c1] σ
  = (f ← freq_getitem pop s;
     r ← py_truediv (if bool_decide (p0 = p1) then 0.5 else 0.25) f;
     py_imul calc r) σ.
Proof.
  intros Hs.
  assert (c0 ≠ c1) as Hc.
  { intros ->. rewrite !filter_cons, filter_nil in Hs.
    by destruct (decide (c1 ∈ [p0; p1])). }
  assert (s ∈ [p0; p1] ∧ s ∈ [c0; c1]) as [Hsp Hsc].
  { assert (s ∈ filter (λ a, a ∈ [p0; p1]) [c0; c1]) as Hin
      by (rewrite Hs; by left).
    apply list_elem_of_filter in Hin. tauto. }
  assert (∀ x, x ∈ [p0; p1] → x ∈ [c0; c1] → x = s) as Huniq.
  { intros x Hxp Hxc.
    assert (x ∈ filter (λ a, a ∈ [p0; p1]) [c0; c1]) as Hin
      by (by apply list_elem_of_filter).
    rewrite Hs in Hin. by apply list_elem_of_singleton in Hin. }
  case_bool_decide as Hp.
  - subst p1. apply marker_step_homozygous_parent.
    + rewrite is_heterozygous_pair. apply bool_decide_false. tauto.
    + rewrite is_heterozygous_pair. by apply bool_decide_true.
    + simpl. f_equal. apply Huniq; [by left|].
      apply elem_of_cons in Hsp as [->|Hsp]; [done|].
      by apply list_elem_of_singleton in Hsp as ->.
  - apply marker_step_shared_one.
    + rewrite is_heterozygous_pair. by apply bool_decide_true.
    + rewrite is_heterozygous_pair. by apply bool_decide_true.
    + unfold np_intersect1d. rewrite np_unique_pair, decide_False by done.
      assert (∀ x y, x ∈ [p0; p1] → y ∈ [p0; p1] → x ≠ y →
                     x ∈ [c0; c1] → y ∉ [c0; c1]) as Hother.
      { intros x y Hx Hy Hxy Hxc Hyc.
        apply Hxy. by rewrite (Huniq x), (Huniq y). }
      assert (p0 ∈ [p0; p1]) as H0 by (by left).
      assert (p1 ∈ [p0; p1]) as H1 by (right; by left).
      apply elem_of_cons in Hsp as [->|Hsp].
      * pose proof (Hother p0 p1 H0 H1 Hp Hsc) as Hn.
        destruct (decide (p0 ≤ p1)); rewrite !filter_cons, filter_nil;
          rewrite (decide_True (P := p0 ∈ [c0; c1])),
                  (decide_False (P := p1 ∈ [c0; c1])) by done; done.
      * apply list_elem_of_singleton in Hsp as ->.
        pose proof (Hother p1 p0 H1 H0 (not_eq_sym Hp) Hsc) as Hn.
        destruct (decide (p0 ≤ p1)); rewrite !filter_cons, filter_nil;
          rewrite (decide_False (P := p0 ∈ [c0; c1])),
                  (decide_True (P := p1 ∈ [c0; c1])) by done; done.
Qed.



(** Each of the ratios of the loop body, multiplied into [calc], gives a
    float. *)
Lemma py_imul_float calc r σ v σ' :
  py_imul calc r σ = (inr v, σ') → ∃ x, v = PyFloat x.
Proof. destruct calc; intros [= <- <-] || discriminate; by eexists. Qed.

Lemma bind_inr_inv {A B} (m : M A) (k : A → M B) σ b σ' :
  (m ≫= k) σ = (inr b, σ') →
  ∃ a σ1, m σ = (inr a, σ1) ∧ k a σ1 = (inr b, σ').
Proof.
  rewrite bind_run. destruct (m σ) as [[e|a] σ1]; [discriminate|].
  intros H. by exists a, σ1.
Qed.

(** X13: the four tests of the loop body leave no pair of rows without a
    ratio: a step that returns has multiplied [calc] by a float, so its
    result is a float, whatever [calc] was. *)
Theorem marker_step_float pop calc p c σ v σ' :
  Duo.marker_step pop calc p c σ = (inr v, σ') → ∃ x, v = PyFloat x.
Proof.
  unfold Duo.marker_step.
  destruct (Duo.is_heterozygous p), (Duo.is_heterozygous c);
    cbn [andb negb]; intros Hrun.
  - apply bind_inr_inv in Hrun as (v1 & σ1 & Hrun & [= <- <-]).
    destruct (bool_decide _).
    + repeat (apply bind_inr_inv in Hrun as (? & ? & _ & Hrun)).
      by eapply py_imul_float.
    + repeat (apply bind_inr_inv in Hrun as (? & ? & _ & Hrun)).
      by eapply py_imul_float.
  - apply bind_inr_inv in Hrun as (v1 & σ1 & [= <- <-] & Hrun).
    apply bind_inr_inv in Hrun as (v2 & σ2 & Hrun & [= <- <-]).
    repeat (apply bind_inr_inv in Hrun as (? & ? & _ & Hrun)).
    by eapply py_imul_float.
  - apply bind_inr_inv in Hrun as (v1 & σ1 & [= <- <-] & Hrun).
    apply bind_inr_inv in Hrun as (v2 & σ2 & [= <- <-] & Hrun).
    apply bind_inr_inv in Hrun as (v3 & σ3 & Hrun & [= <- <-]).
    repeat (apply bind_inr_inv in Hrun as (? & ? & _ & Hrun)).
    by eapply py_imul_float.
  - apply bind_inr_inv in Hrun as (v1 & σ1 & [= <- <-] & Hrun).
    apply bind_inr_inv in Hrun as (v2 & σ2 & [= <- <-] & Hrun).
    apply bind_inr_inv in Hrun as (v3 & σ3 & [= <- <-] & Hrun).
    repeat (apply bind_inr_inv in Hrun as (? & ? & _ & Hrun)).
    by eapply py_imul_float.
Qed.

Lemma marker_step_float_witness :
  let pop : gmap Z float := {[13 := 0.2%float]} in
  Duo.marker_step pop (PyInt 1) [13; 13] [16; 13] (Store ∅ ∅)
  = (inr (PyFloat (0.5 / 0.2)), Store ∅ ∅) ∧
  ∃ x, PyFloat (0.5 / 0.2) = PyFloat x.
Proof.
  intros pop.
  assert (Duo.marker_step pop (PyInt 1) [13; 13] [16; 13] (Store ∅ ∅)
          = (inr (PyFloat (0.5 / 0.2)), Store ∅ ∅)) as Hrun by reflexivity.
  split; [exact Hrun|].
  exact (marker_step_float pop (PyInt 1) [13; 13] [16; 13]
           (Store ∅ ∅) _ (Store ∅ ∅) Hrun).
Defined.

(** ** The loop as a whole *)

(** What every returning step establishes holds of the result of a loop
    that ran at least once. *)
Lemma for_acc_last {A B} (body : B → A → M B) (P : B → Prop) l acc σ v σ' :
  (∀ acc x σ v σ', body acc x σ = (inr v, σ') → P v) →
  l ≠ [] → for_acc body acc l σ = (inr v, σ') → P v.
Proof.
  intros Hbody. revert acc σ. induction l as [|x l IH]; intros acc σ Hl; [done|].
  cbn [for_acc]. intros (acc1 & σ1 & Hstep & Hrest)%bind_inr_inv.
  destruct l as [|y l].
  - injection Hrest as <- <-. by eapply Hbody.
  - by eapply IH.
Qed.

(** A loop of read-only steps over a list one of whose items makes the step
    raise does not return. *)
Lemma for_acc_raises {A B} (body : B → A → M B) l x σ :
  (∀ acc y, read_only (body acc y)) →
  x ∈ l → (∀ acc, ∃ e, body acc x σ = (inl e, σ)) →
  ∀ acc, ∃ e, for_acc body acc l σ = (inl e, σ).
Proof.
  intros Hro Hx Hraise. induction l as [|y l IH]; intros acc.
  - by apply elem_of_nil in Hx.
  - cbn [for_acc]. rewrite bind_run. pose proof (Hro acc y σ) as Hσ.
    destruct (body acc y σ) as [[e|acc1] σ1] eqn:Hstep; simpl in Hσ; subst σ1.
    + by exists e.
    + apply elem_of_cons in Hx as [->|Hx].
      * destruct (Hraise acc) as [e He]. congruence.
      * by apply IH.
Qed.

Lemma elem_of_zip_rows {A} (f g : string → A) ms m :
  m ∈ ms → (m, (f m, g m)) ∈ zip ms (zip (f <$> ms) (g <$> ms)).
Proof.
  induction ms as [|m' ms IH]; intros Hm; [by apply elem_of_nil in Hm|].
  cbn [fmap list_fmap zip zip_with].
  apply elem_of_cons in Hm as [->|Hm]; [by left|]. right. by apply IH.
Qed.

(** X14: the three kinds of result of [paternity_index].  When some flagged
    marker has a non-empty name the result is the diagnostic with the count
    of flagged markers.  Otherwise a result is the integer 1 the product
    starts from, and then only when the loop had no marker to run over, or
    a float. *)
Theorem paternity_index_result self σ v σ' :
  Duo.paternity_index self σ = (inr v, σ') →
  if py_any (Duo.flagged_markers self) then
    v = PyStr ("There are " +:+ pretty (length (Duo.flagged_markers self))
               +:+ " inconsistent markers.")
  else
    (v = PyInt 1 ∧ (Duo.markers self = []
                    ∨ Profile.alleles (Duo.parent self) = []
                    ∨ Profile.alleles (Duo.child self) = []))
    ∨ ∃ x, v = PyFloat x.
Proof.
  destruct (py_any (Duo.flagged_markers self)) eqn:Hany.
  - rewrite paternity_index_flagged by done. by intros [= <- _].
  - unfold Duo.paternity_index, Duo.inconsistent_markers.
    rewrite bind_run, ret_run, Hany. cbn [py_bool].
    rewrite bool_decide_false by (intros Hne; by apply Hne).
    destruct (Duo.markers self) as [|m ms]; [intros [= <- _]; left; auto|].
    destruct (Profile.alleles (Duo.parent self)) as [|p ps];
      [intros [= <- _]; left; auto|].
    destruct (Profile.alleles (Duo.child self)) as [|c cs];
      [intros [= <- _]; left; auto|].
    intros Hrun. right. revert Hrun.
    apply (for_acc_last _ (λ v, ∃ x, v = PyFloat x)); [|done].
    intros calc [m' [p' c']] σ1 v1 σ1'.
    intros (pop & σ2 & _ & Hstep)%bind_inr_inv.
    by eapply marker_step_float.
Qed.

Lemma paternity_index_result_witness :
  let σ := caller (PyDict {["CSF1PO" := pair 13 13]})
                  (PyDict {["CSF1PO" := pair 13 16]})
                  {["CSF1PO" := {[13 := 0.2%float; 16 := 0.1%float]}]} in
  ∃ self σ', Duo.__init__ 0 1 0 σ = (inr self, σ') ∧
    Duo.paternity_index self σ' = (inr (PyFloat (0.5 / 0.2)), σ') ∧
    if py_any (Duo.flagged_markers self) then
      PyFloat (0.5 / 0.2)
      = PyStr ("There are " +:+ pretty (length (Duo.flagged_markers self))
               +:+ " inconsistent markers.")
    else
      (PyFloat (0.5 / 0.2) = PyInt 1
       ∧ (Duo.markers self = []
          ∨ Profile.alleles (Duo.parent self) = []
          ∨ Profile.alleles (Duo.child self) = []))
      ∨ ∃ x, PyFloat (0.5 / 0.2) = PyFloat x.
Proof.
  intros σ.
  assert (∃ self σ', Duo.__init__ 0 1 0 σ = (inr self, σ') ∧
            Duo.paternity_index self σ' = (inr (PyFloat (0.5 / 0.2)), σ'))
    as (self & σ' & Hinit & Hrun).
  { eexists _, _. split; vm_compute; reflexivity. }
  exists self, σ'. split; [exact Hinit|]. split; [exact Hrun|].
  exact (paternity_index_result self σ' _ σ' Hrun).
Defined.

(** X15: a constructed case one of whose markers has no entry in the
    population table never yields a number: [paternity_index] returns the
    diagnostic when some flagged marker has a non-empty name, and raises an
    exception otherwise, also when the missing marker is the last one and
    all the others have their frequencies. *)
Theorem population_without_marker
    σ parent child population dp dc self σ' σ1 table m :
  objects σ !! parent = Some (PyDict dp) →
  objects σ !! child = Some (PyDict dc) →
  Duo.__init__ parent child population σ = (inr self, σ') →
  tables σ1 !! population = Some table →
  m ∈ Duo.markers self → table !! m = None →
  if py_any (Duo.flagged_markers self) then
    Duo.paternity_index self σ1 =
      (inr (PyStr ("There are " +:+ pretty (length (Duo.flagged_markers self))
                   +:+ " inconsistent markers.")), σ1)
  else ∃ e, Duo.paternity_index self σ1 = (inl e, σ1).
Proof.
  intros Hp Hc Hinit Htable Hm Hmiss.
  destruct (py_any (Duo.flagged_markers self)) eqn:Hany;
    [by apply paternity_index_flagged|].
  unfold Duo.paternity_index, Duo.inconsistent_markers.
  rewrite bind_run, ret_run, Hany. cbn [py_bool].
  rewrite bool_decide_false by (intros Hne; by apply Hne).
  destruct (constructed_shape _ _ _ _ _ _ _ _ Hp Hc Hinit)
    as (_ & _ & _ & Hself & _ & Hsame).
  rewrite Hself in Hm |- *.
  cbn [Duo.markers Duo.parent Duo.child Duo.population] in Hm |- *.
  rewrite !loaded_alleles, Hsame.
  eapply for_acc_raises.
  - intros calc [m' [p c]]. apply read_only_bind;
      [apply read_only_table_getitem|intros pop; apply read_only_marker_step].
  - by apply elem_of_zip_rows.
  - intros calc. exists KeyError. rewrite bind_run. unfold table_getitem.
    by rewrite Htable, Hmiss.
Qed.

Lemma population_without_marker_witness :
  let dp : gmap string collection :=
    {["CSF1PO" := pair 13 13; "TH01" := pair 6 7]} in
  let dc : gmap string collection :=
    {["CSF1PO" := pair 13 16; "TH01" := pair 6 9]} in
  let table : gmap string (gmap Z float) :=
    {["CSF1PO" := {[13 := 0.2%float; 16 := 0.1%float]}]} in
  let σ := caller (PyDict dp) (PyDict dc) table in
  ∃ self σ', Duo.__init__ 0 1 0 σ = (inr self, σ') ∧
    py_any (Duo.flagged_markers self) = false ∧
    ∃ e, Duo.paternity_index self σ' = (inl e, σ').
Proof.
  intros dp dc table σ.
  assert (∃ self σ', Duo.__init__ 0 1 0 σ = (inr self, σ')
            ∧ Duo.markers self = ["CSF1PO"; "TH01"]
            ∧ py_any (Duo.flagged_markers self) = false
            ∧ tables σ' !! 0%nat = Some table)
    as (self & σ' & Hinit & Hms & Hany & Htable).
  { eexists _, _. repeat split; vm_compute; reflexivity. }
  exists self, σ'. split; [exact Hinit|]. split; [exact Hany|].
  pose proof (population_without_marker σ 0%nat 1%nat 0%nat dp dc self σ' σ'
                table "TH01") as H.
  rewrite Hany in H. apply H; try reflexivity; try exact Hinit; try exact Htable.
  rewrite Hms. right. left.
Defined.

(** X16: where the loop of [paternity_index] runs.  In a case constructed
    from dictionaries whose alleles, those of ["AMEL"] aside, fit 64 signed
    bits (so that the arrays hold them as they are) and none of whose
    markers is named by the empty string, when [inconsistent_markers] is 0
    every marker has a heterozygous child exactly one of whose alleles lies
    outside the parent's pair.  The branches of the loop for a homozygous
    child and for two shared alleles are never taken in such a case. *)
Theorem unflagged_case_rows σ parent child population dp dc self σ' σ1 :
  objects σ !! parent = Some (PyDict dp) →
  objects σ !! child = Some (PyDict dc) →
  Duo.__init__ parent child population σ = (inr self, σ') →
  int64_alleles dp = true → int64_alleles dc = true →
  dp !! "" = None →
  Duo.inconsistent_markers self σ1 = (inr (PyInt 0), σ1) →
  ∀ m, m ∈ Duo.markers self →
    ∃ p0 p1 c0 c1,
      dp !! m = Some (Sized [p0; p1]) ∧ dc !! m = Some (Sized [c0; c1]) ∧
      length (Duo._check [p0; p1] [c0; c1]) = 1%nat ∧ c0 ≠ c1 ∧
      Duo.is_heterozygous [c0; c1] = true ∧
      length (np_intersect1d [p0; p1] [c0; c1]) ≠ 2%nat.
Proof.
  intros Hp Hc Hinit Hip Hic Hname Hzero m Hm.
  pose proof (constructed_markers_elem _ _ _ _ _ _ _ _ Hp Hc Hinit)
    as (Hin & Hpm & _).
  pose proof (flagged_markers_constructed _ _ _ _ _ _ _ _ Hp Hc Hinit Hip Hic)
    as Hflag.
  pose proof (flagged_markers_sublist self) as Hsub.
  rewrite Hpm in Hsub.
  assert (Duo.flagged_markers self = []) as Hnil.
  { assert ("" ∉ Duo.flagged_markers self) as Hno.
    { intros Hbad. apply (sublist_subseteq _ _ Hsub) in Hbad.
      apply Hin in Hbad as (_ & [v Hv] & _). congruence. }
    unfold Duo.inconsistent_markers in Hzero. rewrite ret_run in Hzero.
    rewrite (py_any_named _ Hno) in Hzero.
    case_bool_decide as Hne; [discriminate|].
    by destruct (Duo.flagged_markers self); [|destruct Hne]. }
  destruct (constructed_shape _ _ _ _ _ _ _ _ Hp Hc Hinit)
    as (_ & Hwfp & Hwfc & _).
  destruct (proj1 (Hin m) Hm) as (Hne & [vp Hvp] & [vc Hvc]).
  apply well_formed_spec in Hwfp, Hwfc.
  pose proof (Hwfp m vp Hvp) as H2p. pose proof (Hwfc m vc Hvc) as H2c.
  destruct vp as [[|p0 [|p1 [|? ?]]]|]; try discriminate H2p.
  destruct vc as [[|c0 [|c1 [|? ?]]]|]; try discriminate H2c.
  exists p0, p1, c0, c1.
  assert (length (filter (λ a, a ∈ [p0; p1]) [c0; c1]) = 1%nat) as Hone.
  { destruct (decide (length (filter (λ a, a ∈ [p0; p1]) [c0; c1]) = 1%nat))
      as [|Hbad]; [done|].
    apply (Hflag m [p0; p1] [c0; c1] Hne Hvp Hvc) in Hbad.
    rewrite Hnil in Hbad. by apply elem_of_nil in Hbad. }
  assert (length (Duo._check [p0; p1] [c0; c1]) = 1%nat) as Hcheck.
  { pose proof (check_plus_shared [p0; p1] [c0; c1]) as Hsum.
    rewrite Hone in Hsum. simpl in Hsum. lia. }
  assert (c0 ≠ c1) as Hc01.
  { intros ->. by apply (homozygous_child_check [p0; p1] c1). }
  repeat split; try done.
  - rewrite is_heterozygous_pair. by apply bool_decide_true.
  - intros Htwo.
    assert (∀ a, a ∈ np_intersect1d [p0; p1] [c0; c1] →
                 a ∈ filter (λ a, a ∈ [p0; p1]) [c0; c1]) as Hincl.
    { intros a. unfold np_intersect1d, np_unique.
      rewrite !list_elem_of_filter, merge_sort_Permutation, elem_of_remove_dups.
      tauto. }
    assert (NoDup (np_intersect1d [p0; p1] [c0; c1])) as Hnd.
    { unfold np_intersect1d, np_unique. apply NoDup_filter.
      rewrite merge_sort_Permutation. apply NoDup_remove_dups. }
    destruct (np_intersect1d [p0; p1] [c0; c1]) as [|a [|b [|? ?]]];
      try discriminate Htwo.
    destruct (filter (λ a, a ∈ [p0; p1]) [c0; c1]) as [|s [|? ?]];
      try discriminate Hone.
    assert (a = s) as Ha.
    { apply list_elem_of_singleton, Hincl. by left. }
    assert (b = s) as Hb.
    { apply list_elem_of_singleton, Hincl. right. by left. }
    subst. apply NoDup_cons in Hnd as [Hnd _]. apply Hnd. by left.
Qed.

Lemma unflagged_case_rows_witness :
  let dp : gmap string collection :=
    {["CSF1PO" := pair 13 13; "TH01" := pair 6 7]} in
  let dc : gmap string collection :=
    {["CSF1PO" := pair 13 16; "TH01" := pair 6 9]} in
  let σ := caller (PyDict dp) (PyDict dc) ∅ in
  int64_alleles dp = true ∧ int64_alleles dc = true ∧
  ∃ self σ', Duo.__init__ 0 1 0 σ = (inr self, σ') ∧
    Duo.inconsistent_markers self σ' = (inr (PyInt 0), σ') ∧
    ∀ m, m ∈ Duo.markers self →
      ∃ p0 p1 c0 c1,
        dp !! m = Some (Sized [p0; p1]) ∧ dc !! m = Some (Sized [c0; c1]) ∧
        length (Duo._check [p0; p1] [c0; c1]) = 1%nat ∧ c0 ≠ c1 ∧
        Duo.is_heterozygous [c0; c1] = true ∧
        length (np_intersect1d [p0; p1] [c0; c1]) ≠ 2%nat.
Proof.
  intros dp dc σ.
  assert (∃ self σ', Duo.__init__ 0 1 0 σ = (inr self, σ')
            ∧ Duo.inconsistent_markers self σ' = (inr (PyInt 0), σ'))
    as (self & σ' & Hinit & Hzero).
  { eexists _, _. split; vm_compute; reflexivity. }
  assert (int64_alleles dp = true) as Hip by (vm_compute; reflexivity).
  assert (int64_alleles dc = true) as Hic by (vm_compute; reflexivity).
  split; [exact Hip|]. split; [exact Hic|].
  exists self, σ'. split; [exact Hinit|]. split; [exact Hzero|].
  apply (unflagged_case_rows σ 0%nat 1%nat 0%nat dp dc self σ' σ');
    [reflexivity|reflexivity|exact Hinit|exact Hip|exact Hic|reflexivity
    |exact Hzero].
Defined.

(** * A profile on its own *)

Lemma rows_of_sized data d markers σ :
  objects σ !! data = Some (PyDict d) →
  (∀ m, m ∈ markers → ∃ items, d !! m = Some (Sized items)) →
  mapM (λ marker, py_getitem data marker ≫= py_tuple) markers σ
  = (inr (row d <$> markers), σ).
Proof.
  intros Hdata. induction markers as [|m markers IH]; intros Hin; [done|].
  destruct (Hin m) as [items Hm]; [left|].
  cbn [mapM]. rewrite !bind_run.
  unfold py_getitem at 1. rewrite Hdata, Hm. cbn [py_tuple].
  rewrite ret_run, bind_run, IH.
  - rewrite ret_run. cbn [fmap list_fmap]. unfold row at 2. by rewrite Hm.
  - intros m' Hm'. apply Hin. by right.
Qed.

Lemma rows_of_unsized data d markers σ :
  objects σ !! data = Some (PyDict d) →
  (∀ m, m ∈ markers → is_Some (d !! m)) →
  (∃ m, m ∈ markers ∧ d !! m = Some Unsized) →
  mapM (λ marker, py_getitem data marker ≫= py_tuple) markers σ
  = (inl TypeError, σ).
Proof.
  intros Hdata. induction markers as [|m markers IH]; intros Hin (k & Hk & Hbad).
  - by apply elem_of_nil in Hk.
  - cbn [mapM]. rewrite !bind_run. unfold py_getitem at 1. rewrite Hdata.
    destruct (Hin m) as [v Hv]; [left|]. rewrite Hv.
    destruct v as [items|]; [|done]. cbn [py_tuple].
    rewrite ret_run, bind_run, IH; [done| |].
    + intros m' Hm'. apply Hin. by right.
    + exists k. split; [|done].
      apply elem_of_cons in Hk as [->|Hk]; [congruence|done].
Qed.

(** X17: [Profile(d)] for a dictionary [d] of collections of Python ints.
    A marker whose value cannot be made a tuple (a bare number, [None])
    makes it raise [TypeError].  When every collection has the same length,
    whatever that length is, the profile is made: it holds the caller's
    dictionary itself, the marker names in lexicographic order and the array
    [np.array] makes of the rows in that order.  When two collections differ
    in length, [np.array] refuses the rows and the constructor raises
    [ValueError]. *)
Theorem profile_of_dictionary σ data d :
  objects σ !! data = Some (PyDict d) →
  let markers := py_sorted (map_to_list d).*1 in
  ((∃ m, d !! m = Some Unsized) →
   Profile.__init__ data σ = (inl TypeError, σ)) ∧
  (∀ n, (∀ m v, d !! m = Some v → ∃ items, v = Sized items ∧ length items = n) →
        Profile.__init__ data σ
        = (inr (Profile.Build data markers (np_convert (row d <$> markers))),
           σ)) ∧
  (∀ m1 m2 l1 l2,
     (∀ m v, d !! m = Some v → v ≠ Unsized) →
     d !! m1 = Some (Sized l1) → d !! m2 = Some (Sized l2) →
     length l1 ≠ length l2 →
     Profile.__init__ data σ = (inl ValueError, σ)).
Proof.
  intros Hdata markers.
  assert (∀ m, m ∈ markers ↔ is_Some (d !! m)) as Hkeys.
  { intros m. unfold markers. rewrite elem_of_py_sorted. apply elem_of_keys. }
  assert (Profile.__init__ data σ
          = (rows ← mapM (λ marker, py_getitem data marker ≫= py_tuple) markers;
             alleles ← np_array rows;
             mret (Profile.Build data markers alleles)) σ) as Hrun.
  { unfold Profile.__init__, Profile._parse_markers, Profile._parse_alleles.
    rewrite !bind_run. unfold py_keys at 1. rewrite Hdata, ret_run.
    fold markers. rewrite !bind_run.
    destruct (mapM (M:=M) _ markers σ) as [[e|rows] σ1]; [done|].
    rewrite bind_run. by destruct (np_array rows σ1) as [[e|alleles] σ2]. }
  rewrite Hrun, bind_run.
  split; [|split].
  - intros (m & Hm). rewrite (rows_of_unsized data d); [done..| |].
    + intros k. apply Hkeys.
    + exists m. split; [|done]. apply Hkeys. by eexists.
  - intros n Hn. rewrite (rows_of_sized data d); [|done|].
    + rewrite bind_run, (np_array_run _ n); [done|].
      apply Forall_fmap, Forall_forall.
      intros m [v Hv]%Hkeys. destruct (Hn m v Hv) as (items & -> & Hlen).
      simpl. unfold row. by rewrite Hv.
    + intros m [v Hv]%Hkeys. destruct (Hn m v Hv) as (items & -> & _).
      by exists items.
  - intros m1 m2 l1 l2 Hsized H1 H2 Hlen.
    rewrite (rows_of_sized data d); [|done|].
    + rewrite bind_run. unfold np_array.
      destruct (forallb _ (row d <$> markers)) eqn:Hall; [|done].
      rewrite forallb_forall in Hall. destruct Hlen.
      assert (∀ m l, d !! m = Some (Sized l) →
                length l = length (default [] (head (row d <$> markers)))) as Hl.
      { intros m l Hm. eapply bool_decide_eq_true_1, Hall.
        apply list_elem_of_In, list_elem_of_fmap. exists m.
        split; [unfold row; by rewrite Hm|]. apply Hkeys. by eexists. }
      by rewrite (Hl m1 l1), (Hl m2 l2).
    + intros m [v Hv]%Hkeys. destruct v as [items|]; [by exists items|].
      by destruct (Hsized m _ Hv).
Qed.

Lemma profile_of_dictionary_witness :
  let d : gmap string collection :=
    {["CSF1PO" := Sized [13; 14]; "TH01" := Sized [6; 7; 9]]} in
  let σ := caller (PyDict d) PyOther ∅ in
  objects σ !! 0%nat = Some (PyDict d) ∧
  Profile.__init__ 0 σ = (inl ValueError, σ).
Proof.
  intros d σ. split; [reflexivity|].
  destruct (profile_of_dictionary σ 0%nat d) as (_ & _ & Hragged);
    [reflexivity|].
  apply (Hragged "CSF1PO" "TH01" [13; 14] [6; 7; 9]); [|reflexivity..|done].
  intros m v Hv ->. unfold d in Hv.
  apply lookup_insert_Some in Hv as [[_ Hv]|[_ Hv]]; [discriminate Hv|].
  apply lookup_singleton_Some in Hv as [_ Hv]. discriminate Hv.
Defined.
